(** * ADK-POC: the tool registry of [agent.py] and the session loop of [app.py]

    A shallow embedding of the five tool functions of [src/agent.py]
    ([search_products], [get_product_details], [check_order_status],
    [redirect_to_human_support], [redirect_to_product_page]) and of
    [get_agent_response] of [src/app.py], followed by the properties the
    specification states about them.

    Modelling conventions.
    - A Python [str] is a [string].  [lower], [upper] and [is_space] are
      the ASCII tables of [str.lower], [str.upper] and [str.isspace]: they
      agree with Python on text made of ASCII characters ([isascii]) and
      leave any other character as it is, which Python does not.  A
      theorem whose truth depends on a law of case mapping or on which
      characters are blank is therefore stated for ASCII arguments.
    - A Python [dict] is an association list in insertion order, looked up
      by first match; [d[k]] on an absent key raises [KeyError].
    - Raising code returns in the error monad [res].
    - The module [mock_data] (the constants [PRODUCTS], [ORDERS] and
      [SUPPORT_DEPARTMENTS]) is not part of the sources: the three
      catalogs are parameters of the tool functions. *)

From Stdlib Require Import String Ascii List Bool ZArith Lia DecimalString.
Import ListNotations.

Open Scope list_scope.
Open Scope string_scope.

(* ================================================================== *)
(** * Python strings *)
(* ================================================================== *)

(** [s.isascii()]: every character is in the ASCII range. *)
Definition isascii_char (c : ascii) : bool := (nat_of_ascii c <? 128)%nat.

Fixpoint isascii (s : string) : bool :=
  match s with
  | EmptyString => true
  | String c s' => isascii_char c && isascii s'
  end.

(** [c.isupper()] and [c.islower()] on one ASCII character. *)
Definition is_upper_ascii (c : ascii) : bool :=
  let n := nat_of_ascii c in (65 <=? n)%nat && (n <=? 90)%nat.

Definition is_lower_ascii (c : ascii) : bool :=
  let n := nat_of_ascii c in (97 <=? n)%nat && (n <=? 122)%nat.

Definition lower_ascii (c : ascii) : ascii :=
  if is_upper_ascii c then ascii_of_nat (nat_of_ascii c + 32) else c.

Definition upper_ascii (c : ascii) : ascii :=
  if is_lower_ascii c then ascii_of_nat (nat_of_ascii c - 32) else c.

(** [s.lower()] and [s.upper()] for an ASCII [s]. *)
Fixpoint lower (s : string) : string :=
  match s with
  | EmptyString => EmptyString
  | String c s' => String (lower_ascii c) (lower s')
  end.

Fixpoint upper (s : string) : string :=
  match s with
  | EmptyString => EmptyString
  | String c s' => String (upper_ascii c) (upper s')
  end.

(** [c.isspace()] for an ASCII [c]: tab, line feed, vertical tab, form
    feed, carriage return, the four separators 0x1c-0x1f, and the space. *)
Definition is_space (c : ascii) : bool :=
  let n := nat_of_ascii c in
  ((9 <=? n)%nat && (n <=? 13)%nat)
  || ((28 <=? n)%nat && (n <=? 31)%nat)
  || (n =? 32)%nat.

(** Truth value of a [str]: non-empty. *)
Definition str_truthy (s : string) : bool :=
  match s with EmptyString => false | _ => true end.

(** [s.split()] with no argument: the maximal runs of non-whitespace
    characters, left to right.  [cur] is the run being read. *)
Fixpoint split_from (cur : string) (s : string) : list string :=
  match s with
  | EmptyString => if str_truthy cur then [cur] else []
  | String c s' =>
      if is_space c
      then (if str_truthy cur then cur :: split_from EmptyString s'
            else split_from EmptyString s')
      else split_from (cur ++ String c EmptyString) s'
  end.

Definition split (s : string) : list string := split_from EmptyString s.

(** [s.lstrip()], [s.rstrip()] and [s.strip()]. *)
Fixpoint lstrip (s : string) : string :=
  match s with
  | EmptyString => EmptyString
  | String c s' => if is_space c then lstrip s' else s
  end.

Fixpoint rstrip (s : string) : string :=
  match s with
  | EmptyString => EmptyString
  | String c s' =>
      match rstrip s' with
      | EmptyString => if is_space c then EmptyString else String c EmptyString
      | r => String c r
      end
  end.

Definition strip (s : string) : string := rstrip (lstrip s).

(** [w in s] for two strings: [w] occurs in [s] at some offset. *)
Fixpoint is_substring (w s : string) : bool :=
  prefix w s
  || match s with
     | EmptyString => false
     | String _ s' => is_substring w s'
     end.

(** The meaning of [w in s]. *)
Definition Substring (w s : string) : Prop :=
  exists a b, s = a ++ w ++ b.

(** [s] begins, respectively ends, with a whitespace character. *)
Definition starts_with_space (s : string) : bool :=
  match s with
  | EmptyString => false
  | String c _ => is_space c
  end.

Fixpoint ends_with_space (s : string) : bool :=
  match s with
  | EmptyString => false
  | String c EmptyString => is_space c
  | String _ s' => ends_with_space s'
  end.

(** Every character of [s] is whitespace. *)
Fixpoint all_space (s : string) : bool :=
  match s with
  | EmptyString => true
  | String c s' => is_space c && all_space s'
  end.

(** No character of [s] is whitespace. *)
Fixpoint no_space (s : string) : bool :=
  match s with
  | EmptyString => true
  | String c s' => negb (is_space c) && no_space s'
  end.

(* ================================================================== *)
(** * Python values, dicts and exceptions *)
(* ================================================================== *)

(** The exceptions this code can raise: [d[k]] on an absent key, and a
    method call ([.lower()]) on a value that has no such method. *)
Inductive exn : Type :=
| KeyError (key : string)
| AttributeError (attr : string).

Inductive res (A : Type) : Type :=
| Ok (a : A)
| Raise (e : exn).

Arguments Ok {A} a.
Arguments Raise {A} e.

Definition bind {A B : Type} (m : res A) (k : A -> res B) : res B :=
  match m with
  | Ok a => k a
  | Raise e => Raise e
  end.

Notation "x <- m ;; k" := (bind m (fun x => k))
  (at level 61, m at next level, right associativity).

(** The values stored in a catalog record.  This code only copies and
    formats them, so a [float] is carried by its [repr]. *)
Inductive scalar : Type :=
| SNone
| SBool (b : bool)
| SInt (z : Z)
| SFloat (repr : string)
| SStr (s : string).

(** [format(v)] as an f-string replacement field [{v}] computes it. *)
Definition format (v : scalar) : string :=
  match v with
  | SNone => "None"
  | SBool true => "True"
  | SBool false => "False"
  | SInt z => NilZero.string_of_int (Z.to_int z)
  | SFloat r => r
  | SStr s => s
  end.

(** [v.lower()]: only a [str] has the method. *)
Definition scalar_lower (v : scalar) : res string :=
  match v with
  | SStr s => Ok (lower s)
  | _ => Raise (AttributeError "lower")
  end.

(** A [dict] with [str] keys, in insertion order. *)
Definition dict (V : Type) : Type := list (string * V).

(** [d.get(k)]. *)
Fixpoint dict_get {V : Type} (d : dict V) (k : string) : option V :=
  match d with
  | [] => None
  | (k', v) :: d' => if String.eqb k' k then Some v else dict_get d' k
  end.

(** [d.get(k, default)]. *)
Definition dict_get_default {V : Type} (d : dict V) (k : string) (default : V) : V :=
  match dict_get d k with
  | Some v => v
  | None => default
  end.

(** [d[k]]. *)
Definition subscript {V : Type} (d : dict V) (k : string) : res V :=
  match dict_get d k with
  | Some v => Ok v
  | None => Raise (KeyError k)
  end.

(** [d.values()] and [d.keys()], in iteration order. *)
Definition values {V : Type} (d : dict V) : list V := map snd d.
Definition keys {V : Type} (d : dict V) : list string := map fst d.

(** A catalog record (a product, an order, a department) and a catalog. *)
Definition record : Type := dict scalar.
Definition catalog : Type := dict record.

(** Truth value of a [dict] or [list]: non-empty. *)
Definition list_truthy {A : Type} (l : list A) : bool :=
  match l with [] => false | _ => true end.

(** What a tool returns: a [dict] whose values are scalars, one catalog
    record, or a list of records. *)
Inductive value : Type :=
| Atom (a : scalar)
| Rec (r : record)
| Recs (l : list record).

Definition result : Type := dict value.

(** The [status] tag and the [message] of a result. *)
Definition status (r : result) : option string :=
  match dict_get r "status" with
  | Some (Atom (SStr s)) => Some s
  | _ => None
  end.

Definition message (r : result) : option string :=
  match dict_get r "message" with
  | Some (Atom (SStr s)) => Some s
  | _ => None
  end.

(** The [products] list of a result; empty when the result has none. *)
Definition result_products (r : result) : list record :=
  match dict_get r "products" with
  | Some (Recs l) => l
  | _ => []
  end.

(* ================================================================== *)
(** * agent.py: the tool functions *)
(* ================================================================== *)

Section Tools.

(** [from mock_data import ORDERS, PRODUCTS, SUPPORT_DEPARTMENTS] *)
Variables PRODUCTS ORDERS SUPPORT_DEPARTMENTS : catalog.

(** The f-string of lines 72-75, lowercased. *)
Definition searchable (product : record) : res string :=
  name <- subscript product "name" ;;
  category <- subscript product "category" ;;
  brand <- subscript product "brand" ;;
  description <- subscript product "description" ;;
  Ok (lower (format name ++ " " ++ format category ++ " " ++ format brand
             ++ " " ++ format description)).

(** The dict literal of lines 78-85. *)
Definition summary (product : record) : res record :=
  id <- subscript product "id" ;;
  name <- subscript product "name" ;;
  category <- subscript product "category" ;;
  price <- subscript product "price" ;;
  currency <- subscript product "currency" ;;
  in_stock <- subscript product "in_stock" ;;
  Ok [("id", id); ("name", name); ("category", category); ("price", price);
      ("currency", currency); ("in_stock", in_stock)].

(** The condition of line 70:
    [category and product["category"].lower() != category.lower()]. *)
Definition category_mismatch (category : string) (product : record) : res bool :=
  if str_truthy category then
    c <- subscript product "category" ;;
    cl <- scalar_lower c ;;
    Ok (negb (cl =? lower category))
  else Ok false.

(** [any(word in searchable for word in query_lower.split())] *)
Definition any_word_in (query_lower text : string) : bool :=
  existsb (fun word => is_substring word text) (split query_lower).

(** The [for] loop of lines 69-86 over the products still to visit;
    [results] is the list built so far. *)
Fixpoint search_loop (query_lower category : string)
         (products : list record) (results : list record)
  : res (list record) :=
  match products with
  | [] => Ok results
  | product :: rest =>
      skip <- category_mismatch category product ;;
      if skip then search_loop query_lower category rest results
      else
        text <- searchable product ;;
        if any_word_in query_lower text then
          s <- summary product ;;
          search_loop query_lower category rest (results ++ [s])
        else search_loop query_lower category rest results
  end.

Definition search_products (query category : string) : res result :=
  let query_lower := lower query in
  results <- search_loop query_lower category (values PRODUCTS) [] ;;
  if list_truthy results then
    Ok [("status", Atom (SStr "found"));
        ("count", Atom (SInt (Z.of_nat (length results))));
        ("products", Recs results)]
  else
    Ok [("status", Atom (SStr "not_found"));
        ("message", Atom (SStr ("No products found matching '" ++ query
                                ++ "'. Try different keywords.")))].

(** [if product:] holds when [PRODUCTS.get] found a record (not [None])
    and the record is a non-empty dict. *)
Definition get_product_details (product_id : string) : res result :=
  match dict_get PRODUCTS (upper product_id) with
  | Some ((_ :: _) as product) =>
      Ok [("status", Atom (SStr "found")); ("product", Rec product)]
  | _ =>
      Ok [("status", Atom (SStr "not_found"));
          ("message", Atom (SStr ("Product '" ++ product_id
              ++ "' not found. Use search_products to find valid IDs.")))]
  end.

Definition check_order_status (order_id : string) : res result :=
  match dict_get ORDERS (upper order_id) with
  | Some ((_ :: _) as order) =>
      Ok [("status", Atom (SStr "found")); ("order", Rec order)]
  | _ =>
      Ok [("status", Atom (SStr "not_found"));
          ("message", Atom (SStr ("Order '" ++ order_id
              ++ "' not found. Please check the order ID and try again. "
              ++ "Order IDs look like ORD-XXXXX.")))]
  end.

Definition redirect_to_human_support (topic reason : string) : res result :=
  general <- subscript SUPPORT_DEPARTMENTS "general" ;;
  let dept := dict_get_default SUPPORT_DEPARTMENTS (lower topic) general in
  department <- subscript dept "department" ;;
  phone <- subscript dept "phone" ;;
  email <- subscript dept "email" ;;
  hours <- subscript dept "hours" ;;
  Ok [("status", Atom (SStr "redirected"));
      ("reason", Atom (SStr reason));
      ("department", Rec dept);
      ("message", Atom (SStr ("I'm connecting you with our "
          ++ format department ++ " team. You can reach them at "
          ++ format phone ++ " or " ++ format email
          ++ " (" ++ format hours ++ ").")))].

Definition base_url : string := "https://shop-demo.example/products".

(** [if not product:] is the complement of the test above. *)
Definition redirect_to_product_page (product_id action : string) : res result :=
  match dict_get PRODUCTS (upper product_id) with
  | Some ((_ :: _) as product) =>
      let '(url, action_label) :=
        if lower action =? "buy"
        then (base_url ++ "/" ++ upper product_id ++ "/checkout", "Purchase")
        else (base_url ++ "/" ++ upper product_id, "View") in
      product_name <- subscript product "name" ;;
      in_stock <- subscript product "in_stock" ;;
      Ok [("status", Atom (SStr "success"));
          ("action", Atom (SStr action_label));
          ("product_name", Atom product_name);
          ("url", Atom (SStr url));
          ("in_stock", Atom in_stock)]
  | _ =>
      Ok [("status", Atom (SStr "not_found"));
          ("message", Atom (SStr ("Product '" ++ product_id ++ "' not found.")))]
  end.

(** The default of the [action] parameter. *)
Definition default_action : string := "view".

End Tools.

(** ** The registry against the Python store

    [PRODUCTS], [ORDERS] and [SUPPORT_DEPARTMENTS] are module globals
    bound to dicts whose values are dict objects.  Here the objects live
    in a store, at addresses; a catalog maps its keys to addresses; and
    a result that hands out a catalog record hands out its address, as
    the Python code hands out the object itself and not a copy.  Code
    runs in a state monad over the store, with operations that read and
    an operation that writes; each tool is written again with the
    operations its source performs. *)

Definition ref : Type := nat.

Record store : Type := mkStore {
  objects : ref -> record;
  g_products : dict ref;
  g_orders : dict ref;
  g_support_departments : dict ref
}.

Definition M (A : Type) : Type := store -> res A * store.

Definition ret {A : Type} (a : A) : M A := fun s => (Ok a, s).

(** A computation that touches no object: it returns or raises. *)
Definition lift {A : Type} (x : res A) : M A := fun s => (x, s).

Definition bindM {A B : Type} (m : M A) (k : A -> M B) : M B :=
  fun s =>
    match m s with
    | (Ok a, s') => k a s'
    | (Raise e, s') => (Raise e, s')
    end.

Notation "x <~ m ;; k" := (bindM m (fun x => k))
  (at level 61, m at next level, right associativity).

(** Reading a global name. *)
Definition global (name : store -> dict ref) : M (dict ref) :=
  fun s => (Ok (name s), s).

(** [o[k]], reading the object at [o]. *)
Definition getitem (o : ref) (k : string) : M scalar :=
  fun s => (subscript (objects s o) k, s).

(** [bool(o)]: a dict object is true when it is not empty. *)
Definition truth (o : ref) : M bool :=
  fun s => (Ok (list_truthy (objects s o)), s).

(** [d[k] = v] on a dict value: the binding is replaced where it is, or
    added at the end. *)
Fixpoint dict_set {V : Type} (d : dict V) (k : string) (v : V) : dict V :=
  match d with
  | [] => [(k, v)]
  | (k', v') :: d' =>
      if String.eqb k' k then (k', v) :: d' else (k', v') :: dict_set d' k v
  end.

(** [o[k] = v], writing the object at [o].  No tool does this. *)
Definition setitem (o : ref) (k : string) (v : scalar) : M unit :=
  fun s =>
    (Ok tt,
     mkStore (fun o' => if Nat.eqb o' o then dict_set (objects s o) k v
                        else objects s o')
             (g_products s) (g_orders s) (g_support_departments s)).

(** What a tool returns, with catalog records by address. *)
Inductive pvalue : Type :=
| PAtom (a : scalar)
| PObj (o : ref)
| PList (l : list record).

Definition presult : Type := dict pvalue.

(** A tool name with its arguments. *)
Inductive call : Type :=
| SearchProducts (query category : string)
| GetProductDetails (product_id : string)
| CheckOrderStatus (order_id : string)
| RedirectToHumanSupport (topic reason : string)
| RedirectToProductPage (product_id action : string).

Module Registry.

Definition searchable (product : ref) : M string :=
  name <~ getitem product "name" ;;
  category <~ getitem product "category" ;;
  brand <~ getitem product "brand" ;;
  description <~ getitem product "description" ;;
  ret (lower (format name ++ " " ++ format category ++ " " ++ format brand
              ++ " " ++ format description)).

(** The summary is a new dict, owned by the result. *)
Definition summary (product : ref) : M record :=
  id <~ getitem product "id" ;;
  name <~ getitem product "name" ;;
  category <~ getitem product "category" ;;
  price <~ getitem product "price" ;;
  currency <~ getitem product "currency" ;;
  in_stock <~ getitem product "in_stock" ;;
  ret [("id", id); ("name", name); ("category", category); ("price", price);
       ("currency", currency); ("in_stock", in_stock)].

Definition category_mismatch (category : string) (product : ref) : M bool :=
  if str_truthy category then
    c <~ getitem product "category" ;;
    cl <~ lift (scalar_lower c) ;;
    ret (negb (cl =? lower category))
  else ret false.

Fixpoint search_loop (query_lower category : string)
         (products : list ref) (results : list record) : M (list record) :=
  match products with
  | [] => ret results
  | product :: rest =>
      skip <~ category_mismatch category product ;;
      if skip then search_loop query_lower category rest results
      else
        text <~ searchable product ;;
        if any_word_in query_lower text then
          s <~ summary product ;;
          search_loop query_lower category rest (results ++ [s])
        else search_loop query_lower category rest results
  end.

Definition search_products (query category : string) : M presult :=
  let query_lower := lower query in
  products <~ global g_products ;;
  results <~ search_loop query_lower category (values products) [] ;;
  if list_truthy results then
    ret [("status", PAtom (SStr "found"));
         ("count", PAtom (SInt (Z.of_nat (length results))));
         ("products", PList results)]
  else
    ret [("status", PAtom (SStr "not_found"));
         ("message", PAtom (SStr ("No products found matching '" ++ query
                                  ++ "'. Try different keywords.")))].

(** [c.get(k)] followed by the truth test on what it returned. *)
Definition get_truthy (c : dict ref) (k : string) : M (option ref) :=
  match dict_get c k with
  | Some o => t <~ truth o ;; ret (if t then Some o else None)
  | None => ret None
  end.

Definition get_product_details (product_id : string) : M presult :=
  products <~ global g_products ;;
  product <~ get_truthy products (upper product_id) ;;
  match product with
  | Some o => ret [("status", PAtom (SStr "found")); ("product", PObj o)]
  | None =>
      ret [("status", PAtom (SStr "not_found"));
           ("message", PAtom (SStr ("Product '" ++ product_id
               ++ "' not found. Use search_products to find valid IDs.")))]
  end.

Definition check_order_status (order_id : string) : M presult :=
  orders <~ global g_orders ;;
  order <~ get_truthy orders (upper order_id) ;;
  match order with
  | Some o => ret [("status", PAtom (SStr "found")); ("order", PObj o)]
  | None =>
      ret [("status", PAtom (SStr "not_found"));
           ("message", PAtom (SStr ("Order '" ++ order_id
               ++ "' not found. Please check the order ID and try again. "
               ++ "Order IDs look like ORD-XXXXX.")))]
  end.

Definition redirect_to_human_support (topic reason : string) : M presult :=
  departments <~ global g_support_departments ;;
  general <~ lift (subscript departments "general") ;;
  let dept := dict_get_default departments (lower topic) general in
  department <~ getitem dept "department" ;;
  phone <~ getitem dept "phone" ;;
  email <~ getitem dept "email" ;;
  hours <~ getitem dept "hours" ;;
  ret [("status", PAtom (SStr "redirected"));
       ("reason", PAtom (SStr reason));
       ("department", PObj dept);
       ("message", PAtom (SStr ("I'm connecting you with our "
           ++ format department ++ " team. You can reach them at "
           ++ format phone ++ " or " ++ format email
           ++ " (" ++ format hours ++ ").")))].

Definition redirect_to_product_page (product_id action : string) : M presult :=
  products <~ global g_products ;;
  product <~ get_truthy products (upper product_id) ;;
  match product with
  | Some o =>
      let '(url, action_label) :=
        if lower action =? "buy"
        then (base_url ++ "/" ++ upper product_id ++ "/checkout", "Purchase")
        else (base_url ++ "/" ++ upper product_id, "View") in
      product_name <~ getitem o "name" ;;
      in_stock <~ getitem o "in_stock" ;;
      ret [("status", PAtom (SStr "success"));
           ("action", PAtom (SStr action_label));
           ("product_name", PAtom product_name);
           ("url", PAtom (SStr url));
           ("in_stock", PAtom in_stock)]
  | None =>
      ret [("status", PAtom (SStr "not_found"));
           ("message", PAtom (SStr ("Product '" ++ product_id ++ "' not found.")))]
  end.

(** The agent calling a tool by name. *)
Definition invoke (c : call) : M presult :=
  match c with
  | SearchProducts q cat => search_products q cat
  | GetProductDetails p => get_product_details p
  | CheckOrderStatus o => check_order_status o
  | RedirectToHumanSupport t r => redirect_to_human_support t r
  | RedirectToProductPage p a => redirect_to_product_page p a
  end.

(** A sequence of calls, each run on the store the one before left; an
    exception ends its own call only. *)
Fixpoint invoke_all (cs : list call) (s : store) : list (res presult) * store :=
  match cs with
  | [] => ([], s)
  | c :: cs' =>
      let '(r, s1) := invoke c s in
      let '(rs, s2) := invoke_all cs' s1 in
      (r :: rs, s2)
  end.

End Registry.

(** A computation that leaves every store as it found it. *)
Definition read_only {A : Type} (m : M A) : Prop :=
  forall s, snd (m s) = s.

(** The catalog a global is bound to, and a result, with each address
    replaced by the record the store holds there. *)
Definition view (s : store) (c : dict ref) : catalog :=
  map (fun kr => (fst kr, objects s (snd kr))) c.

Definition resolve_value (s : store) (v : pvalue) : value :=
  match v with
  | PAtom a => Atom a
  | PObj o => Rec (objects s o)
  | PList l => Recs l
  end.

Definition resolve (s : store) (r : res presult) : res result :=
  match r with
  | Ok d => Ok (map (fun kv => (fst kv, resolve_value s (snd kv))) d)
  | Raise e => Raise e
  end.

(** The same call answered by the functions of section [Tools], on the
    catalogs the store holds. *)
Definition denote (c : call) (s : store) : res result :=
  match c with
  | SearchProducts q cat => search_products (view s (g_products s)) q cat
  | GetProductDetails p => get_product_details (view s (g_products s)) p
  | CheckOrderStatus o => check_order_status (view s (g_orders s)) o
  | RedirectToHumanSupport t r =>
      redirect_to_human_support (view s (g_support_departments s)) t r
  | RedirectToProductPage p a =>
      redirect_to_product_page (view s (g_products s)) p a
  end.

(** [m] leaves the store as it found it, and its outcome there is [f]. *)
Definition refines (m : M presult) (f : store -> res result) : Prop :=
  forall s, snd (m s) = s /\ resolve s (fst (m s)) = f s.

(* ================================================================== *)
(** * app.py: the session loop *)
(* ================================================================== *)

(** The parts of the ADK types the loop reads: [part.text],
    [content.parts] (both optional) and [event.content]. *)
Record Part : Type := mkPart { text : option string }.

Record Content : Type := mkContent {
  role : option string;
  parts : option (list Part)
}.

Record Event : Type := mkEvent { content : option Content }.

Definition fallback : string :=
  "I'm sorry, I couldn't process that. Could you try rephrasing?".

(** Lines 84-86: the inner [for] over the parts of one event. *)
Fixpoint add_parts (text_acc : string) (ps : list Part) : string :=
  match ps with
  | [] => text_acc
  | part :: ps' =>
      match text part with
      | Some t => if str_truthy t then add_parts (text_acc ++ t) ps'
                  else add_parts text_acc ps'
      | None => add_parts text_acc ps'
      end
  end.

(** Lines 78-86: the [async for] over the events, run to exhaustion. *)
Fixpoint run_events (text_acc : string) (events : list Event) : string :=
  match events with
  | [] => text_acc
  | event :: events' =>
      match content event with
      | Some c =>
          match parts c with
          | Some ((_ :: _) as ps) => run_events (add_parts text_acc ps) events'
          | _ => run_events text_acc events'
          end
      | None => run_events text_acc events'
      end
  end.

Section SessionLoop.

(** [runner.run_async(user_id, session_id, new_message)]: the events
    the agent emits for one turn, in emission order. *)
Variable run_async : string -> string -> Content -> list Event.

(** The inner [_run] of lines 76-87; [session_id] is
    [st.session_state.session_id]. *)
Definition _run (session_id : string) (content : Content) : string :=
  run_events EmptyString (run_async "web_user" session_id content).

Definition get_agent_response (session_id user_message : string) : string :=
  let content := mkContent (Some "user") (Some [mkPart (Some user_message)]) in
  let final_text := _run session_id content in
  if str_truthy final_text then strip final_text else fallback.

End SessionLoop.

(** ** What the specification calls the emitted text fragments *)

(** The text fragments of one event and of a whole turn, in emission
    order: the parts that carry a non-empty text. *)
Definition part_fragments (ps : list Part) : list string :=
  flat_map (fun p => match text p with
                     | Some t => if str_truthy t then [t] else []
                     | None => []
                     end) ps.

Definition event_fragments (e : Event) : list string :=
  match content e with
  | Some c => match parts c with
              | Some ps => part_fragments ps
              | None => []
              end
  | None => []
  end.

Definition fragments (events : list Event) : list string :=
  flat_map event_fragments events.

(** [str.join] with the empty string as separator. *)
Definition join (l : list string) : string := String.concat EmptyString l.

(* ================================================================== *)
(** * Vocabulary of the specification *)
(* ================================================================== *)

(** ** Well-formed catalogs

    What the tool functions take for granted about [mock_data]: a product
    has the fields they read, with a [str] category; a department has the
    four contact fields, and the [general] department exists. *)

Definition has_key {V : Type} (d : dict V) (k : string) : bool :=
  match dict_get d k with Some _ => true | None => false end.

Definition product_keys : list string :=
  ["id"; "name"; "category"; "brand"; "description"; "price"; "currency";
   "in_stock"].

Definition department_keys : list string :=
  ["department"; "phone"; "email"; "hours"].

Definition has_str (r : record) (k : string) : bool :=
  match dict_get r k with Some (SStr _) => true | _ => false end.

Definition wf_product (p : record) : bool :=
  forallb (has_key p) product_keys && has_str p "category".

Definition wf_products (products : catalog) : bool :=
  forallb wf_product (values products).

Definition wf_department (d : record) : bool :=
  forallb (has_key d) department_keys.

Definition wf_departments (departments : catalog) : bool :=
  has_key departments "general" && forallb wf_department (values departments).

(** ** Matching a product against a query and a category *)

(** A field of a record as text; on a well-formed product every field
    read below is present. *)
Definition field (r : record) (k : string) : scalar :=
  match dict_get r k with Some v => v | None => SNone end.

Definition field_text (r : record) (k : string) : string := format (field r k).

(** The lowercased text of name, category, brand and description, with
    the single spaces the f-string puts between them. *)
Definition search_text (p : record) : string :=
  lower (field_text p "name" ++ " " ++ field_text p "category" ++ " "
         ++ field_text p "brand" ++ " " ++ field_text p "description").

(** The category filter: no constraint for an empty [c]. *)
Definition category_ok (c : string) (p : record) : Prop :=
  c <> EmptyString -> lower (field_text p "category") = lower c.

(** Some lowercased token of [q] occurs in the text of [p]. *)
Definition token_hit (q : string) (p : record) : Prop :=
  exists w, In w (split (lower q)) /\ Substring w (search_text p).

Definition matches (q c : string) (p : record) : Prop :=
  category_ok c p /\ token_hit q p.

(** The same, decided. *)
Definition matchesb (q c : string) (p : record) : bool :=
  (negb (str_truthy c) || (lower (field_text p "category") =? lower c))
  && existsb (fun w => is_substring w (search_text p)) (split (lower q)).

(** ** Result tags *)

Definition status_tags : list string :=
  ["found"; "not_found"; "success"; "redirected"].

(** [m] returns (does not raise) one result whose status is a known tag. *)
Definition returns_tagged (m : res result) : Prop :=
  exists r s, m = Ok r /\ status r = Some s /\ In s status_tags.

(** ** Sample data, in the shape the docstrings describe *)

Definition sample_ac : record :=
  [("id", SStr "AC-001"); ("name", SStr "CoolBreeze Inverter AC");
   ("category", SStr "Air Conditioners"); ("brand", SStr "CoolBreeze");
   ("description", SStr "12000 BTU inverter split unit");
   ("price", SFloat "499.99"); ("currency", SStr "USD");
   ("in_stock", SBool true)].

Definition sample_tv : record :=
  [("id", SStr "TV-001"); ("name", SStr "VisionMax 55 OLED TV");
   ("category", SStr "Televisions"); ("brand", SStr "VisionMax");
   ("description", SStr "55 inch 4K OLED smart TV");
   ("price", SFloat "1299.0"); ("currency", SStr "USD");
   ("in_stock", SBool false); ("restock_date", SStr "2025-03-01")].

Definition sample_products : catalog :=
  [("AC-001", sample_ac); ("TV-001", sample_tv)].

Definition sample_orders : catalog :=
  [("ORD-10001", [("order_id", SStr "ORD-10001"); ("status", SStr "shipped")])].

Definition sample_general : record :=
  [("department", SStr "Customer Care"); ("phone", SStr "1-800-555-0100");
   ("email", SStr "care@shop-demo.example"); ("hours", SStr "Mon-Fri 9-18")].

Definition sample_returns : record :=
  [("department", SStr "Returns"); ("phone", SStr "1-800-555-0101");
   ("email", SStr "returns@shop-demo.example"); ("hours", SStr "Mon-Sat 9-17")].

Definition sample_departments : catalog :=
  [("returns", sample_returns); ("general", sample_general)].

(** An agent that answers every turn with one blank fragment, and one
    that calls a tool (an event without text) and then answers in two
    fragments. *)
Definition blank_agent (_ _ : string) (_ : Content) : list Event :=
  [mkEvent (Some (mkContent (Some "model") (Some [mkPart (Some " ")])))].

Definition sample_agent (_ _ : string) (_ : Content) : list Event :=
  [mkEvent (Some (mkContent (Some "model") (Some [mkPart None])));
   mkEvent None;
   mkEvent (Some (mkContent (Some "model")
                    (Some [mkPart (Some " The AC-001 "); mkPart (Some "is in stock. ")])))].

(* ================================================================== *)
(** * config.py *)
(* ================================================================== *)

Definition APP_NAME : string := "ecommerce_support_agent".
Definition AGENT_NAME : string := "product_consultant".
Definition MODEL_NAME : string := "gemini-2.5-flash".

Definition PAGE_TITLE : string := "AI Shopping Assistant".
Definition PAGE_ICON : string := "🛒".

(** The line feed of the [\n] escapes. *)
Definition nl : string := String (ascii_of_nat 10) EmptyString.

Definition WELCOME_MESSAGE : string :=
  "Hello! I'm your AI Shopping Assistant. I can help you with:" ++ nl ++ nl
  ++ "- **Product information** — specs, features, comparisons" ++ nl
  ++ "- **Technical terms explained** — BTU, inverter, OLED, etc." ++ nl
  ++ "- **Order tracking** — check your order status" ++ nl
  ++ "- **Support routing** — connect you with the right department" ++ nl ++ nl
  ++ "What can I help you with today?".

(* ================================================================== *)
(** * app.py: session state, chat display and input handling *)
(* ================================================================== *)

(** One entry of [st.session_state.messages]: a dict with [str] values. *)
Definition chat_turn : Type := dict string.

(** What one [with st.chat_message(role, avatar): st.markdown(body)]
    puts on the page. *)
Record bubble : Type := mkBubble {
  b_role : string;
  b_avatar : option string;
  b_body : string
}.

(** The dict literals of lines 116 and 123. *)
Definition user_turn (prompt : string) : chat_turn :=
  [("role", "user"); ("content", prompt)].

Definition assistant_turn (response : string) : chat_turn :=
  [("role", "assistant"); ("content", response)].

(** Lines 103-106: the history replayed, one bubble per stored turn. *)
Fixpoint render_history (messages : list chat_turn) : res (list bubble) :=
  match messages with
  | [] => Ok []
  | msg :: rest =>
      role <- subscript msg "role" ;;
      let avatar := if role =? "assistant" then Some PAGE_ICON else None in
      body <- subscript msg "content" ;;
      shown <- render_history rest ;;
      Ok (mkBubble role avatar body :: shown)
  end.

Section Script.

(** The ADK runner is an opaque object: [create_runner()] builds it, and
    [runner.app_name] is read from it. *)
Variable Runner : Type.
Variable create_runner : Runner.
Variable app_name : Runner -> string.

(** [st.session_state]: a key is present when its field is [Some]. *)
Record session_state : Type := mkState {
  ss_messages : option (list chat_turn);
  ss_runner : option Runner;
  ss_session_id : option string
}.

(** What the ADK does during one run of the script:
    [runner.session_service.create_session(app_name, user_id).id] and
    [runner.run_async(user_id, session_id, new_message)]. *)
Record world : Type := mkWorld {
  create_session : Runner -> string -> string -> string;
  run_async_of : Runner -> string -> string -> Content -> list Event
}.

(** Lines 48-62: each key is set only when it is absent. *)
Definition init_session_state (w : world) (st : session_state) : session_state :=
  let messages := match ss_messages st with Some m => m | None => [] end in
  let runner := match ss_runner st with Some r => r | None => create_runner end in
  let session_id :=
    match ss_session_id st with
    | Some id => id
    | None => create_session w runner (app_name runner) "web_user"
    end in
  mkState (Some messages) (Some runner) (Some session_id).

(** Lines 112-123: a submitted, non-empty prompt is shown and stored,
    answered by [get_agent_response], and the answer shown and stored. *)
Definition handle_input (w : world) (runner : Runner) (session_id : string)
           (prompt : option string) (messages : list chat_turn)
  : list chat_turn * list bubble :=
  match prompt with
  | Some p =>
      if str_truthy p then
        let response := get_agent_response (run_async_of w runner) session_id p in
        ((messages ++ [user_turn p]) ++ [assistant_turn response],
         [mkBubble "user" None p; mkBubble "assistant" (Some PAGE_ICON) response])%list
      else (messages, [])
  | None => (messages, [])
  end.

(** One run of the script from line 48 on: the state it leaves and the
    chat bubbles it shows (the page chrome of lines 29-42 and the
    spinner are left out).  [prompt] is what [st.chat_input] returns.
    Reading a key that is absent from [st.session_state] raises. *)
Definition script_run (w : world) (prompt : option string) (st : session_state)
  : res (session_state * list bubble) :=
  let st1 := init_session_state w st in
  match ss_messages st1, ss_runner st1, ss_session_id st1 with
  | Some messages, Some runner, Some session_id =>
      let welcome := mkBubble "assistant" (Some PAGE_ICON) WELCOME_MESSAGE in
      shown <- render_history messages ;;
      let '(messages', fresh) := handle_input w runner session_id prompt messages in
      Ok (mkState (Some messages') (Some runner) (Some session_id),
          (welcome :: shown ++ fresh)%list)
  | _, _, _ => Raise (AttributeError "session_state")
  end.


(** The state of a new browser session: no key set. *)
Definition fresh_state : session_state := mkState None None None.



End Script.


(** The bubble a stored turn is replayed as. *)
Definition shows (b : bubble) (t : chat_turn) : Prop :=
  dict_get t "role" = Some (b_role b)
  /\ dict_get t "content" = Some (b_body b)
  /\ b_avatar b = (if b_role b =? "assistant" then Some PAGE_ICON else None).

(* ================================================================== *)
(** * More vocabulary *)
(* ================================================================== *)

(** [l1] is [l2] with some elements left out, the order kept. *)
Inductive subseq {A : Type} : list A -> list A -> Prop :=
| subseq_nil : subseq [] []
| subseq_skip (x : A) (l1 l2 : list A) : subseq l1 l2 -> subseq l1 (x :: l2)
| subseq_take (x : A) (l1 l2 : list A) : subseq l1 l2 -> subseq (x :: l1) (x :: l2).

(** Two outcomes of [search_products] that agree on everything but the
    query echoed in a [not_found] message. *)
Definition same_hits (m1 m2 : res result) : Prop :=
  match m1, m2 with
  | Ok r1, Ok r2 =>
      status r1 = status r2
      /\ dict_get r1 "count" = dict_get r2 "count"
      /\ dict_get r1 "products" = dict_get r2 "products"
  | Raise e1, Raise e2 => e1 = e2
  | _, _ => False
  end.

(** The keys of a summary record, in order. *)
Definition summary_keys : list string :=
  ["id"; "name"; "category"; "price"; "currency"; "in_stock"].

(** The fields [searchable] reads. *)
Definition searchable_keys : list string :=
  ["name"; "category"; "brand"; "description"].

(** The sample catalogs laid out in a store. *)
Definition sample_store : store :=
  mkStore (fun o => match o with
                    | 0 => sample_ac
                    | 1 => sample_tv
                    | 2 => [("order_id", SStr "ORD-10001"); ("status", SStr "shipped")]
                    | 3 => sample_returns
                    | 4 => sample_general
                    | _ => []
                    end)
          [("AC-001", 0); ("TV-001", 1)]
          [("ORD-10001", 2)]
          [("returns", 3); ("general", 4)].

(** A product entered with two fields only. *)
Definition sample_stub : record :=
  [("id", SStr "XX-001"); ("name", SStr "Mystery box")].

(** A product whose category is a number. *)
Definition sample_untyped : record :=
  [("id", SStr "XX-002"); ("name", SStr "Gift card"); ("category", SInt 7);
   ("brand", SStr "Shop"); ("description", SStr "Prepaid card");
   ("price", SInt 25); ("currency", SStr "USD"); ("in_stock", SBool true)].

(** A scripted ADK for the examples: sessions are named after the app,
    and the agent answers as [sample_agent] does. *)
Definition sample_world : world unit :=
  mkWorld unit (fun _ app _ => app ++ "-session-1") (fun _ => sample_agent).

(* ================================================================== *)
(** * Properties of the string operations *)
(* ================================================================== *)

Lemma append_nil_r (s : string) : s ++ EmptyString = s.
Proof. induction s as [|c s IH]; simpl; [reflexivity | now rewrite IH]. Qed.

Lemma append_assoc (a b c : string) : (a ++ b) ++ c = a ++ (b ++ c).
Proof. induction a as [|x a IH]; simpl; [reflexivity | now rewrite IH]. Qed.

Lemma append_eq_nil (a b : string) :
  a ++ b = EmptyString -> a = EmptyString /\ b = EmptyString.
Proof. destruct a; simpl; [auto | discriminate]. Qed.

(** Case mapping, character by character.  These are laws of the ASCII
    tables; [str.lower] and [str.upper] have them on ASCII text only. *)
Lemma upper_lower_ascii (c : ascii) : upper_ascii (lower_ascii c) = upper_ascii c.
Proof. destruct c as [[] [] [] [] [] [] [] []]; reflexivity. Qed.

Lemma upper_upper_ascii (c : ascii) : upper_ascii (upper_ascii c) = upper_ascii c.
Proof. destruct c as [[] [] [] [] [] [] [] []]; reflexivity. Qed.

Lemma lower_lower_ascii (c : ascii) : lower_ascii (lower_ascii c) = lower_ascii c.
Proof. destruct c as [[] [] [] [] [] [] [] []]; reflexivity. Qed.

Lemma is_space_lower_ascii (c : ascii) : is_space (lower_ascii c) = is_space c.
Proof. destruct c as [[] [] [] [] [] [] [] []]; reflexivity. Qed.

Lemma upper_lower (s : string) : upper (lower s) = upper s.
Proof.
  induction s as [|c s IH]; simpl; [reflexivity|].
  now rewrite upper_lower_ascii, IH.
Qed.

Lemma upper_idem (s : string) : upper (upper s) = upper s.
Proof.
  induction s as [|c s IH]; simpl; [reflexivity|].
  now rewrite upper_upper_ascii, IH.
Qed.

Lemma lower_idem (s : string) : lower (lower s) = lower s.
Proof.
  induction s as [|c s IH]; simpl; [reflexivity|].
  now rewrite lower_lower_ascii, IH.
Qed.

Lemma all_space_lower (s : string) : all_space (lower s) = all_space s.
Proof.
  induction s as [|c s IH]; simpl; [reflexivity|].
  now rewrite is_space_lower_ascii, IH.
Qed.

Lemma str_truthy_false (s : string) : str_truthy s = false <-> s = EmptyString.
Proof. destruct s; simpl; split; congruence. Qed.

Lemma str_truthy_true (s : string) : str_truthy s = true <-> s <> EmptyString.
Proof. destruct s; simpl; split; congruence. Qed.

(** [split] of a blank string has no token. *)
Lemma split_all_space (s : string) : all_space s = true -> split s = [].
Proof.
  unfold split. induction s as [|c s IH]; simpl; [reflexivity|].
  intros H. apply andb_prop in H as [Hc Hs]. rewrite Hc. simpl. auto.
Qed.

(** Every token [split] returns is non-empty and free of whitespace. *)
Lemma no_space_snoc (cur : string) (c : ascii) :
  no_space cur = true -> is_space c = false ->
  no_space (cur ++ String c EmptyString) = true.
Proof.
  induction cur as [|x cur IH]; simpl; intros H Hc.
  - now rewrite Hc.
  - apply andb_prop in H as [Hx Hcur]. rewrite Hx. simpl. auto.
Qed.

Lemma split_from_tokens (s cur w : string) :
  no_space cur = true -> In w (split_from cur s) ->
  w <> EmptyString /\ no_space w = true.
Proof.
  revert cur. induction s as [|c s IH]; simpl; intros cur Hcur Hin.
  - destruct cur; simpl in Hin; [contradiction|].
    destruct Hin as [<-|[]]. split; [discriminate | assumption].
  - destruct (is_space c) eqn:Hc.
    + destruct cur; simpl in Hin.
      * now apply (IH EmptyString).
      * destruct Hin as [<-|Hin]; [split; [discriminate | assumption]|].
        now apply (IH EmptyString).
    + apply (IH (cur ++ String c EmptyString)); [|assumption].
      now apply no_space_snoc.
Qed.

Lemma split_tokens (s w : string) :
  In w (split s) -> w <> EmptyString /\ no_space w = true.
Proof. apply split_from_tokens. reflexivity. Qed.

(** [prefix] and [is_substring] decide what they are named after. *)
Lemma prefix_iff (w s : string) : prefix w s = true <-> exists b, s = w ++ b.
Proof.
  revert s. induction w as [|c w IH]; intros s.
  - destruct s; simpl; split; eauto.
  - destruct s as [|d s]; simpl.
    + split; [discriminate | intros [b Hb]; discriminate].
    + destruct (ascii_dec c d) as [->|Hne].
      * rewrite IH. split; intros [b Hb]; exists b; congruence.
      * split; [discriminate | intros [b Hb]; congruence].
Qed.

Lemma is_substring_iff (w s : string) :
  is_substring w s = true <-> Substring w s.
Proof.
  unfold Substring. induction s as [|c s IH].
  - cbn [is_substring]. rewrite orb_false_r, prefix_iff. split.
    + intros [b Hb]. now exists EmptyString, b.
    + intros (a & b & H). destruct a; [now exists b | discriminate].
  - cbn [is_substring]. rewrite orb_true_iff, prefix_iff, IH. split.
    + intros [[b Hb] | (a & b & H)].
      * now exists EmptyString, b.
      * exists (String c a), b. simpl. now rewrite H.
    + intros (a & b & H). destruct a as [|x a]; simpl in H.
      * left. now exists b.
      * right. exists a, b. congruence.
Qed.

(** Stripping: the result is empty exactly for a blank string. *)
Lemma all_space_lstrip (s : string) : all_space (lstrip s) = all_space s.
Proof.
  induction s as [|c s IH]; simpl; [reflexivity|].
  destruct (is_space c) eqn:Hc; simpl; [assumption | now rewrite Hc].
Qed.

Lemma rstrip_empty_iff (s : string) :
  rstrip s = EmptyString <-> all_space s = true.
Proof.
  induction s as [|c s IH]; simpl; [tauto|].
  destruct (rstrip s) eqn:Hr.
  - destruct (is_space c); simpl.
    + tauto.
    + split; discriminate.
  - split; [discriminate|].
    intros H. apply andb_prop in H as [_ Hs].
    apply IH in Hs. discriminate.
Qed.

Lemma strip_empty_iff (s : string) :
  strip s = EmptyString <-> all_space s = true.
Proof. unfold strip. now rewrite rstrip_empty_iff, all_space_lstrip. Qed.

(** [strip] removes a blank prefix and a blank suffix, and what is left
    neither begins nor ends with whitespace. *)
Lemma lstrip_decompose (s : string) :
  exists a, s = a ++ lstrip s /\ all_space a = true.
Proof.
  induction s as [|c s (a & Ha & Hsp)]; [now exists EmptyString|].
  simpl. destruct (is_space c) eqn:Hc.
  - exists (String c a). simpl. rewrite Hc, Hsp. split; [congruence | reflexivity].
  - now exists EmptyString.
Qed.

Lemma rstrip_decompose (s : string) :
  exists b, s = rstrip s ++ b /\ all_space b = true.
Proof.
  induction s as [|c s (b & Hb & Hsp)]; [now exists EmptyString|].
  simpl. destruct (rstrip s) as [|d r] eqn:Hr.
  - simpl in Hb. subst b. destruct (is_space c) eqn:Hc.
    + exists (String c s). simpl. now rewrite Hc, Hsp.
    + now exists s.
  - exists b. simpl. split; [f_equal; exact Hb | assumption].
Qed.

Lemma strip_decompose (s : string) :
  exists a b, s = a ++ strip s ++ b /\ all_space a = true /\ all_space b = true.
Proof.
  destruct (lstrip_decompose s) as (a & Ha & Hsa).
  destruct (rstrip_decompose (lstrip s)) as (b & Hb & Hsb).
  exists a, b. unfold strip. now rewrite <- Hb.
Qed.

Lemma lstrip_head (s : string) : starts_with_space (lstrip s) = false.
Proof.
  induction s as [|c s IH]; [reflexivity|].
  simpl. destruct (is_space c) eqn:Hc; [assumption | simpl; assumption].
Qed.

Lemma rstrip_head (s : string) :
  starts_with_space s = false -> starts_with_space (rstrip s) = false.
Proof.
  destruct s as [|c s]; [reflexivity|]. simpl. intros Hc.
  destruct (rstrip s); [now rewrite Hc | assumption].
Qed.

Lemma rstrip_last (s : string) : ends_with_space (rstrip s) = false.
Proof.
  induction s as [|c s IH]; [reflexivity|].
  simpl. destruct (rstrip s) as [|d r] eqn:Hr.
  - destruct (is_space c) eqn:Hc; [reflexivity | simpl; assumption].
  - exact IH.
Qed.

Lemma strip_trimmed (s : string) :
  starts_with_space (strip s) = false /\ ends_with_space (strip s) = false.
Proof.
  unfold strip. split; [apply rstrip_head, lstrip_head | apply rstrip_last].
Qed.

Lemma lower_app (a b : string) : lower (a ++ b) = lower a ++ lower b.
Proof. induction a as [|c a IH]; simpl; [reflexivity | now rewrite IH]. Qed.

Lemma Substring_app_l (w a b : string) : Substring w a -> Substring w (a ++ b).
Proof.
  intros (x & y & ->). exists x, (y ++ b). now rewrite !append_assoc.
Qed.

Lemma Substring_app_r (w a b : string) : Substring w b -> Substring w (a ++ b).
Proof.
  intros (x & y & ->). exists (a ++ x), y. now rewrite !append_assoc.
Qed.


(* ================================================================== *)
(** * Properties of dicts and of well-formed records *)
(* ================================================================== *)

Section DictFacts.

Context {V : Type}.

Lemma dict_get_in_values (d : dict V) (k : string) (v : V) :
  dict_get d k = Some v -> In v (values d).
Proof.
  induction d as [|[k' v'] d IH]; simpl; [discriminate|].
  destruct (k' =? k); [intros [= ->]; now left | right; auto].
Qed.

Lemma has_key_get (d : dict V) (k : string) :
  has_key d k = true -> exists v, dict_get d k = Some v.
Proof. unfold has_key. destruct (dict_get d k); [eauto | discriminate]. Qed.

Lemma subscript_get (d : dict V) (k : string) (v : V) :
  dict_get d k = Some v -> subscript d k = Ok v.
Proof. unfold subscript. now intros ->. Qed.

End DictFacts.

Lemma subscript_field (d : dict scalar) (k : string) :
  has_key d k = true -> subscript d k = Ok (field d k).
Proof.
  intros H. apply has_key_get in H as [v Hv].
  unfold subscript, field. now rewrite Hv.
Qed.

(** Reading off the fields a well-formed product is sure to have. *)
Ltac product_fields H :=
  unfold wf_product, product_keys in H; cbn [forallb] in H;
  repeat match goal with
         | Hc : _ && _ = true |- _ => apply andb_prop in Hc; destruct Hc
         end;
  repeat match goal with
         | Hk : has_key _ _ = true |- _ => apply subscript_field in Hk
         end.

Lemma wf_products_get (products : catalog) (k : string) (p : record) :
  wf_products products = true -> dict_get products k = Some p ->
  wf_product p = true.
Proof.
  unfold wf_products. rewrite forallb_forall. intros Hwf Hget.
  apply Hwf. eapply dict_get_in_values. eassumption.
Qed.

Lemma wf_product_nonempty (p : record) : wf_product p = true -> p <> [].
Proof. intros H ->. discriminate. Qed.

Lemma wf_searchable (p : record) :
  wf_product p = true -> searchable p = Ok (search_text p).
Proof.
  intros H. product_fields H. unfold searchable.
  repeat match goal with Hk : subscript p _ = _ |- _ => rewrite Hk; clear Hk end.
  reflexivity.
Qed.

Lemma wf_summary (p : record) :
  wf_product p = true -> exists s, summary p = Ok s.
Proof.
  intros H. product_fields H. unfold summary.
  repeat match goal with Hk : subscript p _ = _ |- _ => rewrite Hk; clear Hk end.
  simpl. eauto.
Qed.

Lemma wf_category_mismatch (c : string) (p : record) :
  wf_product p = true ->
  category_mismatch c p =
  Ok (negb (negb (str_truthy c) || (lower (field_text p "category") =? lower c))).
Proof.
  intros H. unfold wf_product in H. apply andb_prop in H as [_ H].
  unfold has_str in H. unfold category_mismatch, subscript, field_text, field.
  destruct (str_truthy c); [|reflexivity].
  destruct (dict_get p "category") as [[| | | |s]|]; try discriminate.
  reflexivity.
Qed.

(** [matchesb] decides [matches]. *)
Lemma matchesb_iff (q c : string) (p : record) :
  matchesb q c p = true <-> matches q c p.
Proof.
  unfold matchesb, matches, category_ok, token_hit.
  rewrite andb_true_iff, orb_true_iff, negb_true_iff, str_truthy_false,
    String.eqb_eq, existsb_exists.
  split; intros [Hc Hw]; split.
  - intros Hne. destruct Hc; [contradiction | assumption].
  - destruct Hw as (w & Hin & Hsub). exists w. now rewrite <- is_substring_iff.
  - destruct (string_dec c EmptyString); [now left | right; auto].
  - destruct Hw as (w & Hin & Hsub). exists w. now rewrite is_substring_iff.
Qed.

(* ================================================================== *)
(** * The search loop *)
(* ================================================================== *)

(** On well-formed products the loop does not raise, and what it appends
    to [results] is, in order, the summary of each matching product. *)
Lemma search_loop_filter (q c : string) (products results : list record) :
  forallb wf_product products = true ->
  exists out,
    search_loop (lower q) c products results = Ok (results ++ out)%list
    /\ Forall2 (fun s p => summary p = Ok s) out (filter (matchesb q c) products).
Proof.
  revert results. induction products as [|p rest IH]; intros results Hwf.
  - exists []. simpl. rewrite app_nil_r. split; constructor.
  - cbn [forallb] in Hwf. apply andb_prop in Hwf as [Hp Hrest].
    cbn [search_loop filter]. rewrite (wf_category_mismatch c p Hp).
    unfold matchesb. cbn [bind].
    destruct (negb (str_truthy c) || (lower (field_text p "category") =? lower c)).
    + cbn [negb andb]. rewrite (wf_searchable p Hp). cbn [bind].
      unfold any_word_in.
      destruct (existsb (fun w => is_substring w (search_text p)) (split (lower q))).
      * destruct (wf_summary p Hp) as [s Hs]. rewrite Hs. cbn [bind].
        destruct (IH (results ++ [s])%list Hrest) as (out & Hrun & Hout).
        exists (s :: out). split.
        -- rewrite Hrun. now rewrite <- app_assoc.
        -- now constructor.
      * apply IH, Hrest.
    + cbn [negb andb]. apply IH, Hrest.
Qed.

(** With nothing to look for, the loop leaves [results] as it is. *)
Lemma search_loop_no_token (ql c : string) (products results : list record) :
  forallb wf_product products = true -> split ql = [] ->
  search_loop ql c products results = Ok results.
Proof.
  intros Hwf Hno. revert results.
  induction products as [|p rest IH]; intros results; [reflexivity|].
  cbn [forallb] in Hwf. apply andb_prop in Hwf as [Hp Hrest].
  cbn [search_loop]. rewrite (wf_category_mismatch c p Hp). cbn [bind].
  destruct (negb _); [now apply IH|].
  rewrite (wf_searchable p Hp). cbn [bind].
  unfold any_word_in. rewrite Hno. cbn [existsb]. now apply IH.
Qed.

Lemma Forall2_In_l {A B : Type} (R : A -> B -> Prop) (l : list A) (l' : list B) (x : A) :
  Forall2 R l l' -> In x l -> exists y, In y l' /\ R x y.
Proof.
  induction 1 as [|a b l l' Hab _ IH]; simpl; [contradiction|].
  intros [<-|Hin]; [eauto|].
  destruct (IH Hin) as (y & Hy & Hxy). eauto.
Qed.

(** A summary repeats the category of the product it is taken from. *)
Lemma summary_category (p s : record) :
  summary p = Ok s -> field_text s "category" = field_text p "category".
Proof.
  unfold summary, subscript, field_text, field.
  destruct (dict_get p "id"); [|discriminate].
  destruct (dict_get p "name"); [|discriminate].
  destruct (dict_get p "category"); [|discriminate].
  destruct (dict_get p "price"); [|discriminate].
  destruct (dict_get p "currency"); [|discriminate].
  destruct (dict_get p "in_stock"); [|discriminate].
  cbn [bind]. intros [= <-]. reflexivity.
Qed.

(** What [search_products] returns on a well-formed catalog, in terms of
    the list the loop built. *)
Lemma search_products_run (products : catalog) (q c : string) :
  wf_products products = true ->
  exists out,
    Forall2 (fun s p => summary p = Ok s) out
            (filter (matchesb q c) (values products))
    /\ search_products products q c =
       Ok (if list_truthy out
           then [("status", Atom (SStr "found"));
                 ("count", Atom (SInt (Z.of_nat (List.length out))));
                 ("products", Recs out)]
           else [("status", Atom (SStr "not_found"));
                 ("message", Atom (SStr ("No products found matching '" ++ q
                                         ++ "'. Try different keywords.")))]).
Proof.
  intros Hwf.
  destruct (search_loop_filter q c (values products) [] Hwf) as (out & Hrun & Hout).
  exists out. split; [assumption|].
  unfold search_products. rewrite Hrun. cbn [bind app].
  now destruct out.
Qed.

(* ================================================================== *)
(** * search_products *)
(* ================================================================== *)

(** C2: on a well-formed catalog, [search_products q c] returns a result;
    every record of its [products] list has a category equal to [c] up to
    case whenever [c] is non-empty, and is the summary of a catalog product
    that passes the category filter and whose lowercased
    name/category/brand/description text contains a whitespace-delimited
    token of the lowercased [q] (the text is the one the code builds,
    the four fields joined by single spaces); and when no catalog product
    satisfies this, the status is [not_found] and the message is
    non-empty. *)
Theorem search_products_sound (products : catalog) (q c : string) :
  wf_products products = true ->
  exists r,
    search_products products q c = Ok r
    /\ (forall s, In s (result_products r) ->
          category_ok c s
          /\ exists p, In p (values products) /\ summary p = Ok s
                       /\ matches q c p)
    /\ ((forall p, In p (values products) -> ~ matches q c p) ->
          status r = Some "not_found"
          /\ exists m, message r = Some m /\ m <> EmptyString).
Proof.
  intros Hwf.
  destruct (search_products_run products q c Hwf) as (out & Hout & Hrun).
  eexists. split; [exact Hrun|]. split.
  - intros s Hin.
    assert (Hs : In s out) by (destruct out; [contradiction | exact Hin]).
    destruct (Forall2_In_l _ _ _ _ Hout Hs) as (p & Hp & Hsum).
    apply filter_In in Hp as [Hp Hm]. apply matchesb_iff in Hm.
    split; [|now exists p].
    unfold category_ok. rewrite (summary_category p s Hsum). apply Hm.
  - intros Hnone.
    assert (Hnil : filter (matchesb q c) (values products) = []).
    { destruct (filter (matchesb q c) (values products)) as [|p l] eqn:Hf;
        [reflexivity|].
      assert (Hp : In p (filter (matchesb q c) (values products)))
        by (rewrite Hf; now left).
      apply filter_In in Hp as [Hp Hm]. apply matchesb_iff in Hm.
      now destruct (Hnone p Hp). }
    rewrite Hnil in Hout. inversion Hout; subst. cbn.
    split; [reflexivity|]. eexists. split; [reflexivity | discriminate].
Qed.

Lemma search_products_sound_witness :
  wf_products sample_products = true
  /\ exists r,
       search_products sample_products "OLED tv" "televisions" = Ok r
       /\ (forall s, In s (result_products r) ->
             category_ok "televisions" s
             /\ exists p, In p (values sample_products) /\ summary p = Ok s
                          /\ matches "OLED tv" "televisions" p)
       /\ ((forall p, In p (values sample_products) ->
              ~ matches "OLED tv" "televisions" p) ->
             status r = Some "not_found"
             /\ exists m, message r = Some m /\ m <> EmptyString).
Proof.
  split; [reflexivity|].
  apply (search_products_sound sample_products "OLED tv" "televisions").
  reflexivity.
Defined.

(** C7: on a well-formed catalog the [products] list of the result is,
    record by record and in the same order, the summaries of the catalog
    products that match, taken in the catalog's iteration order; the
    status is [found] exactly when some product matches. *)
Theorem search_products_catalog_order (products : catalog) (q c : string) :
  wf_products products = true ->
  exists r,
    search_products products q c = Ok r
    /\ Forall2 (fun s p => summary p = Ok s)
               (result_products r) (filter (matchesb q c) (values products))
    /\ (status r = Some "found" <->
        filter (matchesb q c) (values products) <> []).
Proof.
  intros Hwf.
  destruct (search_products_run products q c Hwf) as (out & Hout & Hrun).
  eexists. split; [exact Hrun|].
  destruct out as [|s out]; cbn.
  - split; [assumption|]. inversion Hout; subst.
    split; [discriminate | congruence].
  - split; [assumption|]. inversion Hout; subst.
    split; [discriminate | reflexivity].
Qed.

Lemma search_products_catalog_order_witness :
  wf_products sample_products = true
  /\ exists r,
       search_products sample_products "inverter oled" EmptyString = Ok r
       /\ Forall2 (fun s p => summary p = Ok s) (result_products r)
                  (filter (matchesb "inverter oled" EmptyString)
                          (values sample_products))
       /\ (status r = Some "found" <->
           filter (matchesb "inverter oled" EmptyString)
                  (values sample_products) <> []).
Proof.
  split; [reflexivity|].
  apply (search_products_catalog_order sample_products "inverter oled" EmptyString).
  reflexivity.
Defined.

(** C9: on a well-formed catalog, a query that is empty or all
    whitespace gives [not_found], whatever the category and the catalog's
    contents. *)
Theorem search_products_blank_query (products : catalog) (q c : string) :
  wf_products products = true ->
  all_space q = true ->
  search_products products q c =
  Ok [("status", Atom (SStr "not_found"));
      ("message", Atom (SStr ("No products found matching '" ++ q
                              ++ "'. Try different keywords.")))].
Proof.
  intros Hwf Hq. unfold search_products.
  rewrite search_loop_no_token; [reflexivity | exact Hwf |].
  apply split_all_space. now rewrite all_space_lower.
Qed.

Lemma search_products_blank_query_witness :
  wf_products sample_products = true
  /\ all_space "   " = true
  /\ search_products sample_products "   " "Televisions" =
     Ok [("status", Atom (SStr "not_found"));
         ("message", Atom (SStr "No products found matching '   '. Try different keywords."))].
Proof.
  split; [reflexivity|]. split; [reflexivity|].
  apply (search_products_blank_query sample_products "   " "Televisions");
    reflexivity.
Defined.

(** C10: a result of [search_products] with status [found] has a
    [products] list that is non-empty and a [count] equal to its length. *)
Theorem search_products_found_count (products : catalog) (q c : string) (r : result) :
  search_products products q c = Ok r ->
  status r = Some "found" ->
  exists l,
    dict_get r "products" = Some (Recs l)
    /\ dict_get r "count" = Some (Atom (SInt (Z.of_nat (List.length l))))
    /\ l <> [].
Proof.
  unfold search_products.
  destruct (search_loop (lower q) c (values products) []) as [out|e];
    cbn [bind]; [|discriminate].
  destruct out as [|s out]; cbn [list_truthy]; intros [= <-] Hst.
  - discriminate.
  - exists (s :: out). repeat split. discriminate.
Qed.

Lemma search_products_found_count_witness :
  exists r,
    search_products sample_products "smart" EmptyString = Ok r
    /\ status r = Some "found"
    /\ exists l,
         dict_get r "products" = Some (Recs l)
         /\ dict_get r "count" = Some (Atom (SInt (Z.of_nat (List.length l))))
         /\ l <> [].
Proof.
  eexists. split; [reflexivity|]. split; [reflexivity|].
  apply (search_products_found_count sample_products "smart" EmptyString);
    reflexivity.
Defined.

(* ================================================================== *)
(** * get_product_details *)
(* ================================================================== *)

(** C4: for a key [p] of the catalog that is made of ASCII characters,
    is stored in the upper-case form the lookup normalises to and is
    bound to a non-empty record, [get_product_details] of [p], of
    [lower p] and of [upper p] all return the same [found] result
    carrying the whole record of [p]. *)
Theorem get_product_details_case_insensitive
        (products : catalog) (p : string) (product : record) :
  dict_get products p = Some product ->
  isascii p = true ->
  upper p = p ->
  product <> [] ->
  get_product_details products p =
    Ok [("status", Atom (SStr "found")); ("product", Rec product)]
  /\ get_product_details products (lower p) = get_product_details products p
  /\ get_product_details products (upper p) = get_product_details products p.
Proof.
  intros Hget _ Hup Hne. unfold get_product_details.
  rewrite upper_lower, upper_idem, Hup, Hget.
  destruct product; [contradiction | repeat split].
Qed.

Lemma get_product_details_case_insensitive_witness :
  isascii "TV-001" = true
  /\ get_product_details sample_products "TV-001" =
    Ok [("status", Atom (SStr "found")); ("product", Rec sample_tv)]
  /\ get_product_details sample_products (lower "TV-001") =
     get_product_details sample_products "TV-001"
  /\ get_product_details sample_products (upper "TV-001") =
     get_product_details sample_products "TV-001".
Proof.
  split; [reflexivity|].
  apply (get_product_details_case_insensitive sample_products "TV-001" sample_tv);
    [reflexivity | reflexivity | reflexivity | discriminate].
Defined.

(** The lookup normalises its argument only: a key stored in lower case
    is not reachable under any spelling. *)
Remark get_product_details_lower_case_key :
  get_product_details [("ac-001", sample_ac)] "ac-001" =
  Ok [("status", Atom (SStr "not_found"));
      ("message", Atom (SStr "Product 'ac-001' not found. Use search_products to find valid IDs."))].
Proof. reflexivity. Qed.

(* ================================================================== *)
(** * redirect_to_product_page *)
(* ================================================================== *)

(** The three ways [redirect_to_product_page] can end on a well-formed
    catalog. *)
Lemma redirect_to_product_page_run
      (products : catalog) (product_id action : string) :
  wf_products products = true ->
  (exists product,
      dict_get products (upper product_id) = Some product
      /\ (redirect_to_product_page products product_id action =
          Ok [("status", Atom (SStr "success"));
              ("action", Atom (SStr "Purchase"));
              ("product_name", Atom (field product "name"));
              ("url", Atom (SStr (base_url ++ "/" ++ upper product_id ++ "/checkout")));
              ("in_stock", Atom (field product "in_stock"))]
          \/ redirect_to_product_page products product_id action =
             Ok [("status", Atom (SStr "success"));
                 ("action", Atom (SStr "View"));
                 ("product_name", Atom (field product "name"));
                 ("url", Atom (SStr (base_url ++ "/" ++ upper product_id)));
                 ("in_stock", Atom (field product "in_stock"))]))
  \/ redirect_to_product_page products product_id action =
     Ok [("status", Atom (SStr "not_found"));
         ("message", Atom (SStr ("Product '" ++ product_id ++ "' not found.")))].
Proof.
  intros Hwf. unfold redirect_to_product_page.
  destruct (dict_get products (upper product_id)) as [product|] eqn:Hget;
    [|now right].
  left. exists product. split; [reflexivity|].
  pose proof (wf_products_get _ _ _ Hwf Hget) as Hp.
  pose proof (wf_product_nonempty _ Hp) as Hne.
  product_fields Hp.
  destruct product as [|kv product']; [contradiction|].
  set (product := kv :: product') in *.
  repeat match goal with Hk : subscript product _ = _ |- _ => rewrite Hk; clear Hk end.
  destruct (lower action =? "buy"); [now left | now right].
Qed.

(** C5: on a well-formed catalog, for an identifier whose upper-case
    form is a key, [redirect_to_product_page] returns [success] with
    the product's name and stock flag, and with the URL
    base/ID/checkout and the label [Purchase] when the action is [buy]
    up to case, the URL base/ID and the label [View] for any other
    action, the default one included (ID is the upper-cased identifier);
    for an identifier whose upper-case form is not a key it returns
    [not_found]. *)
Theorem redirect_to_product_page_spec
        (products : catalog) (product_id action : string) :
  wf_products products = true ->
  (forall product, dict_get products (upper product_id) = Some product ->
     (lower action = "buy" ->
      redirect_to_product_page products product_id action =
      Ok [("status", Atom (SStr "success"));
          ("action", Atom (SStr "Purchase"));
          ("product_name", Atom (field product "name"));
          ("url", Atom (SStr (base_url ++ "/" ++ upper product_id ++ "/checkout")));
          ("in_stock", Atom (field product "in_stock"))])
     /\ (lower action <> "buy" ->
         redirect_to_product_page products product_id action =
         Ok [("status", Atom (SStr "success"));
             ("action", Atom (SStr "View"));
             ("product_name", Atom (field product "name"));
             ("url", Atom (SStr (base_url ++ "/" ++ upper product_id)));
             ("in_stock", Atom (field product "in_stock"))])
     /\ redirect_to_product_page products product_id default_action =
        Ok [("status", Atom (SStr "success"));
            ("action", Atom (SStr "View"));
            ("product_name", Atom (field product "name"));
            ("url", Atom (SStr (base_url ++ "/" ++ upper product_id)));
            ("in_stock", Atom (field product "in_stock"))])
  /\ (dict_get products (upper product_id) = None ->
      redirect_to_product_page products product_id action =
      Ok [("status", Atom (SStr "not_found"));
          ("message", Atom (SStr ("Product '" ++ product_id ++ "' not found.")))]).
Proof.
  intros Hwf. split.
  - intros product Hget.
    pose proof (wf_products_get _ _ _ Hwf Hget) as Hp.
    pose proof (wf_product_nonempty _ Hp) as Hne.
    product_fields Hp.
    unfold redirect_to_product_page. rewrite Hget.
    destruct product as [|kv product']; [contradiction|].
    set (product := kv :: product') in *.
    repeat match goal with Hk : subscript product _ = _ |- _ => rewrite Hk; clear Hk end.
    repeat split.
    + intros Hbuy. rewrite Hbuy. reflexivity.
    + intros Hother. apply String.eqb_neq in Hother. rewrite Hother. reflexivity.
  - intros Hget. unfold redirect_to_product_page. now rewrite Hget.
Qed.

Lemma redirect_to_product_page_spec_witness :
  wf_products sample_products = true
  /\ redirect_to_product_page sample_products "ac-001" "BUY" =
     Ok [("status", Atom (SStr "success"));
         ("action", Atom (SStr "Purchase"));
         ("product_name", Atom (SStr "CoolBreeze Inverter AC"));
         ("url", Atom (SStr "https://shop-demo.example/products/AC-001/checkout"));
         ("in_stock", Atom (SBool true))]
  /\ redirect_to_product_page sample_products "ac-001" default_action =
     Ok [("status", Atom (SStr "success"));
         ("action", Atom (SStr "View"));
         ("product_name", Atom (SStr "CoolBreeze Inverter AC"));
         ("url", Atom (SStr "https://shop-demo.example/products/AC-001"));
         ("in_stock", Atom (SBool true))]
  /\ redirect_to_product_page sample_products "zz-999" "buy" =
     Ok [("status", Atom (SStr "not_found"));
         ("message", Atom (SStr "Product 'zz-999' not found."))].
Proof.
  split; [reflexivity|].
  destruct (redirect_to_product_page_spec sample_products "ac-001" "BUY" eq_refl)
    as [Hfound _].
  destruct (Hfound sample_ac eq_refl) as (Hbuy & _ & Hdefault).
  destruct (redirect_to_product_page_spec sample_products "zz-999" "buy" eq_refl)
    as [_ Hmissing].
  split; [exact (Hbuy eq_refl)|].
  split; [exact Hdefault | exact (Hmissing eq_refl)].
Defined.

(* ================================================================== *)
(** * redirect_to_human_support *)
(* ================================================================== *)

(** The text of lines 153-155 for a department record. *)
Lemma redirect_to_human_support_run (departments : catalog) (topic reason : string) :
  wf_departments departments = true ->
  exists general,
    dict_get departments "general" = Some general
    /\ let dept := dict_get_default departments (lower topic) general in
       redirect_to_human_support departments topic reason =
       Ok [("status", Atom (SStr "redirected"));
           ("reason", Atom (SStr reason));
           ("department", Rec dept);
           ("message", Atom (SStr ("I'm connecting you with our "
               ++ field_text dept "department" ++ " team. You can reach them at "
               ++ field_text dept "phone" ++ " or " ++ field_text dept "email"
               ++ " (" ++ field_text dept "hours" ++ ").")))].
Proof.
  unfold wf_departments. intros Hwf. apply andb_prop in Hwf as [Hgen Hall].
  apply has_key_get in Hgen as [general Hgen]. exists general.
  split; [assumption|]. cbv zeta.
  assert (Hd : wf_department (dict_get_default departments (lower topic) general) = true).
  { rewrite forallb_forall in Hall. apply Hall. unfold dict_get_default.
    destruct (dict_get departments (lower topic)) eqn:Ht;
      eapply dict_get_in_values; eassumption. }
  unfold redirect_to_human_support. rewrite (subscript_get _ _ _ Hgen). cbn [bind].
  set (dept := dict_get_default departments (lower topic) general) in *.
  unfold wf_department, department_keys in Hd. cbn [forallb] in Hd.
  repeat match goal with
         | Hc : _ && _ = true |- _ => apply andb_prop in Hc; destruct Hc
         end.
  repeat match goal with
         | Hk : has_key _ _ = true |- _ => apply subscript_field in Hk; rewrite Hk; clear Hk
         end.
  reflexivity.
Qed.

(** C6: with the [general] department present and every department
    carrying its contact fields, [redirect_to_human_support] returns,
    for every topic and reason, status [redirected] with the reason, a
    department record and the formatted message; the record is the one
    stored under the lowercased topic when there is one and the
    [general] record otherwise; the status is never [not_found]. *)
Theorem redirect_to_human_support_spec
        (departments : catalog) (topic reason : string) :
  wf_departments departments = true ->
  exists general dept r,
    dict_get departments "general" = Some general
    /\ dept = match dict_get departments (lower topic) with
              | Some d => d
              | None => general
              end
    /\ redirect_to_human_support departments topic reason = Ok r
    /\ r = [("status", Atom (SStr "redirected"));
            ("reason", Atom (SStr reason));
            ("department", Rec dept);
            ("message", Atom (SStr ("I'm connecting you with our "
                ++ field_text dept "department" ++ " team. You can reach them at "
                ++ field_text dept "phone" ++ " or " ++ field_text dept "email"
                ++ " (" ++ field_text dept "hours" ++ ").")))]
    /\ status r = Some "redirected"
    /\ status r <> Some "not_found".
Proof.
  intros Hwf.
  destruct (redirect_to_human_support_run departments topic reason Hwf)
    as (general & Hgen & Hrun).
  exists general. eexists. eexists.
  split; [exact Hgen|]. split; [reflexivity|].
  split; [exact Hrun|]. split; [reflexivity|].
  split; [reflexivity | discriminate].
Qed.

Lemma redirect_to_human_support_spec_witness :
  wf_departments sample_departments = true
  /\ redirect_to_human_support sample_departments "unknown-topic-xyz" "test" =
     Ok [("status", Atom (SStr "redirected"));
         ("reason", Atom (SStr "test"));
         ("department", Rec sample_general);
         ("message", Atom (SStr "I'm connecting you with our Customer Care team. You can reach them at 1-800-555-0100 or care@shop-demo.example (Mon-Fri 9-18)."))].
Proof.
  split; [reflexivity|].
  destruct (redirect_to_human_support_spec sample_departments "unknown-topic-xyz"
              "test" eq_refl)
    as (general & dept & r & Hgen & Hdept & Hrun & Hr & _).
  injection Hgen as <-. cbn in Hdept. subst dept. subst r. exact Hrun.
Defined.

(** The default of [SUPPORT_DEPARTMENTS.get] is evaluated before the
    lookup: without the [general] key the call raises, even on a topic
    that has a department. *)
Remark redirect_to_human_support_needs_general :
  redirect_to_human_support [("returns", sample_returns)] "returns" "test" =
  Raise (KeyError "general").
Proof. reflexivity. Qed.

(* ================================================================== *)
(** * The registry as a whole *)
(* ================================================================== *)

(** Closes [returns_tagged] on a result given by its literal. *)
Ltac tagged :=
  unfold returns_tagged, status_tags;
  do 2 eexists; split; [reflexivity | split; [reflexivity | simpl; tauto]].

(** C3: with well-formed products and departments, each of the five
    tools, on any string arguments, returns (raises nothing) one result
    whose status is one of [found], [not_found], [success],
    [redirected]. *)
Theorem tools_total (products orders departments : catalog) :
  wf_products products = true ->
  wf_departments departments = true ->
  (forall query category, returns_tagged (search_products products query category))
  /\ (forall product_id, returns_tagged (get_product_details products product_id))
  /\ (forall order_id, returns_tagged (check_order_status orders order_id))
  /\ (forall topic reason,
        returns_tagged (redirect_to_human_support departments topic reason))
  /\ (forall product_id action,
        returns_tagged (redirect_to_product_page products product_id action)).
Proof.
  intros Hp Hd. repeat split.
  - intros q c.
    destruct (search_products_run products q c Hp) as (out & _ & Hrun).
    rewrite Hrun. destruct out; tagged.
  - intros pid. unfold get_product_details.
    destruct (dict_get products (upper pid)) as [[|kv product]|]; tagged.
  - intros oid. unfold check_order_status.
    destruct (dict_get orders (upper oid)) as [[|kv order]|]; tagged.
  - intros topic reason.
    destruct (redirect_to_human_support_run departments topic reason Hd)
      as (general & _ & Hrun).
    cbv zeta in Hrun. rewrite Hrun. tagged.
  - intros pid action.
    destruct (redirect_to_product_page_run products pid action Hp)
      as [(product & Hget & [Hrun|Hrun]) | Hrun];
      rewrite Hrun; tagged.
Qed.

Lemma tools_total_witness :
  wf_products sample_products = true
  /\ wf_departments sample_departments = true
  /\ returns_tagged (search_products sample_products "4K TV" EmptyString)
  /\ returns_tagged (get_product_details sample_products "AC-001")
  /\ returns_tagged (check_order_status sample_orders "ord-10001")
  /\ returns_tagged (redirect_to_human_support sample_departments "warranty" "broken")
  /\ returns_tagged (redirect_to_product_page sample_products "TV-001" "buy").
Proof.
  split; [reflexivity|]. split; [reflexivity|].
  destruct (tools_total sample_products sample_orders sample_departments
              eq_refl eq_refl) as (H1 & H2 & H3 & H4 & H5).
  split; [apply H1|]. split; [apply H2|]. split; [apply H3|].
  split; [apply H4 | apply H5].
Defined.

(** ** The tools on the store *)

Lemma values_view (s : store) (c : dict ref) :
  values (view s c) = map (objects s) (values c).
Proof. unfold values, view. rewrite !map_map. reflexivity. Qed.

Lemma dict_get_view (s : store) (c : dict ref) (k : string) :
  dict_get (view s c) k = option_map (objects s) (dict_get c k).
Proof.
  induction c as [|[k' o] c IH]; [reflexivity|].
  cbn. destruct (k' =? k); [reflexivity | exact IH].
Qed.

(** Unfolds the monad and follows the subscripts of one object. *)
Ltac run_reads :=
  unfold bindM, getitem, ret, lift;
  repeat match goal with
         | |- context [subscript ?d ?k] =>
             destruct (subscript d k); cbn [bind]; try reflexivity
         end.

Lemma searchable_run (o : ref) (s : store) :
  Registry.searchable o s = (searchable (objects s o), s).
Proof. unfold Registry.searchable, searchable. run_reads. Qed.

Lemma summary_run (o : ref) (s : store) :
  Registry.summary o s = (summary (objects s o), s).
Proof. unfold Registry.summary, summary. run_reads. Qed.

Lemma category_mismatch_run (c : string) (o : ref) (s : store) :
  Registry.category_mismatch c o s = (category_mismatch c (objects s o), s).
Proof.
  unfold Registry.category_mismatch, category_mismatch.
  destruct (str_truthy c); [|reflexivity].
  run_reads. destruct (scalar_lower a); reflexivity.
Qed.

(** The loop reads the objects it visits and writes none. *)
Lemma search_loop_run (ql c : string) (products : list ref)
      (results : list record) (s : store) :
  Registry.search_loop ql c products results s =
  (search_loop ql c (map (objects s) products) results, s).
Proof.
  revert results. induction products as [|o rest IH]; intros results;
    [reflexivity|].
  cbn [Registry.search_loop search_loop map]. unfold bindM.
  rewrite category_mismatch_run.
  destruct (category_mismatch c (objects s o)) as [[|]|e]; cbn [bind];
    [apply IH | | reflexivity].
  rewrite searchable_run.
  destruct (searchable (objects s o)) as [text|e]; cbn [bind]; [|reflexivity].
  destruct (any_word_in ql text); [|apply IH].
  rewrite summary_run.
  destruct (summary (objects s o)) as [r|e]; cbn [bind]; [apply IH | reflexivity].
Qed.

Lemma get_truthy_run (c : dict ref) (k : string) (s : store) :
  Registry.get_truthy c k s =
  (Ok match dict_get c k with
      | Some o => if list_truthy (objects s o) then Some o else None
      | None => None
      end, s).
Proof.
  unfold Registry.get_truthy. destruct (dict_get c k); reflexivity.
Qed.

Lemma search_products_refines (q c : string) :
  refines (Registry.search_products q c) (denote (SearchProducts q c)).
Proof.
  intros s. unfold Registry.search_products, denote, search_products, bindM, global.
  rewrite search_loop_run, values_view.
  destruct (search_loop (lower q) c (map (objects s) (values (g_products s))) [])
    as [[|r out]|e]; split; reflexivity.
Qed.

Lemma get_product_details_refines (p : string) :
  refines (Registry.get_product_details p) (denote (GetProductDetails p)).
Proof.
  intros s. unfold Registry.get_product_details, denote, get_product_details, bindM, global.
  rewrite get_truthy_run, dict_get_view.
  destruct (dict_get (g_products s) (upper p)) as [o|]; cbn; [|split; reflexivity].
  destruct (objects s o) eqn:Ho; cbn; rewrite ?Ho; split; reflexivity.
Qed.

Lemma check_order_status_refines (p : string) :
  refines (Registry.check_order_status p) (denote (CheckOrderStatus p)).
Proof.
  intros s. unfold Registry.check_order_status, denote, check_order_status, bindM, global.
  rewrite get_truthy_run, dict_get_view.
  destruct (dict_get (g_orders s) (upper p)) as [o|]; cbn; [|split; reflexivity].
  destruct (objects s o) eqn:Ho; cbn; rewrite ?Ho; split; reflexivity.
Qed.

Lemma redirect_to_product_page_refines (p a : string) :
  refines (Registry.redirect_to_product_page p a) (denote (RedirectToProductPage p a)).
Proof.
  intros s.
  unfold Registry.redirect_to_product_page, denote, redirect_to_product_page, bindM, global.
  rewrite get_truthy_run, dict_get_view.
  destruct (dict_get (g_products s) (upper p)) as [o|]; cbn [option_map];
    [|split; reflexivity].
  destruct (objects s o) as [|kv d] eqn:Ho; cbn [list_truthy]; [split; reflexivity|].
  destruct (lower a =? "buy"); unfold getitem, ret; rewrite Ho;
    destruct (subscript (kv :: d) "name"); cbn [bind]; try (split; reflexivity);
    destruct (subscript (kv :: d) "in_stock"); split; reflexivity.
Qed.

Lemma subscript_view (s : store) (c : dict ref) (k : string) :
  subscript (view s c) k =
  match subscript c k with
  | Ok o => Ok (objects s o)
  | Raise e => Raise e
  end.
Proof.
  unfold subscript. rewrite dict_get_view. now destruct (dict_get c k).
Qed.

Lemma dict_get_default_view (s : store) (c : dict ref) (k : string) (g : ref) :
  dict_get_default (view s c) k (objects s g) = objects s (dict_get_default c k g).
Proof.
  unfold dict_get_default. rewrite dict_get_view. now destruct (dict_get c k).
Qed.

Lemma redirect_to_human_support_refines (t r : string) :
  refines (Registry.redirect_to_human_support t r)
          (denote (RedirectToHumanSupport t r)).
Proof.
  intros s.
  unfold Registry.redirect_to_human_support, denote, redirect_to_human_support,
    bindM, global, lift.
  rewrite subscript_view.
  destruct (subscript (g_support_departments s) "general") as [g|e]; cbn [bind];
    [|split; reflexivity].
  rewrite dict_get_default_view.
  set (dept := dict_get_default (g_support_departments s) (lower t) g).
  unfold getitem, ret.
  destruct (subscript (objects s dept) "department"); cbn [bind]; [|split; reflexivity].
  destruct (subscript (objects s dept) "phone"); cbn [bind]; [|split; reflexivity].
  destruct (subscript (objects s dept) "email"); cbn [bind]; [|split; reflexivity].
  destruct (subscript (objects s dept) "hours"); cbn [bind]; split; reflexivity.
Qed.

(** Every tool only reads, and computes on the store what its function
    computes on the catalogs' contents. *)
Lemma invoke_refines (c : call) : refines (Registry.invoke c) (denote c).
Proof.
  destruct c; cbn [Registry.invoke];
    [apply search_products_refines | apply get_product_details_refines
     | apply check_order_status_refines | apply redirect_to_human_support_refines
     | apply redirect_to_product_page_refines].
Qed.

Lemma invoke_read_only (c : call) : read_only (Registry.invoke c).
Proof. intros s. apply invoke_refines. Qed.

Lemma invoke_all_state (cs : list call) (s : store) :
  snd (Registry.invoke_all cs s) = s.
Proof.
  revert s. induction cs as [|c cs IH]; intros s; [reflexivity|].
  cbn [Registry.invoke_all].
  pose proof (invoke_read_only c s) as H1.
  destruct (Registry.invoke c s) as [r s1]. cbn [snd] in H1. subst s1.
  pose proof (IH s) as H2.
  destruct (Registry.invoke_all cs s) as [rs s2]. exact H2.
Qed.

(** The store can be written, and a write is seen by the next read: the
    property below is one of the tools, not of the monad. *)
Remark setitem_writes :
  ~ read_only (setitem 1 "in_stock" (SBool true))
  /\ fst ((_ <~ setitem 1 "in_stock" (SBool true) ;; getitem 1 "in_stock") sample_store)
     <> fst (getitem 1 "in_stock" sample_store).
Proof.
  split.
  - intros H. specialize (H sample_store).
    apply (f_equal (fun s => dict_get (objects s 1) "in_stock")) in H.
    discriminate.
  - discriminate.
Qed.

(** C8: a tool call, run on any store, leaves the store exactly as it
    found it (the catalogs and every object in them), and calling the
    same tool with the same arguments again, straight away or after any
    other tool calls, gives the identical outcome: the same exception,
    or the same result holding the same objects with the same contents,
    which is what the tool's function computes from the arguments and
    the catalogs. *)
Theorem tools_idempotent (s s1 s2 s3 : store) (c : call) (between : list call)
        (r1 r2 : res presult) (rs : list (res presult)) :
  Registry.invoke c s = (r1, s1) ->
  Registry.invoke_all between s1 = (rs, s2) ->
  Registry.invoke c s2 = (r2, s3) ->
  r1 = r2
  /\ s1 = s /\ s2 = s /\ s3 = s
  /\ resolve s1 r1 = resolve s3 r2
  /\ resolve s1 r1 = denote c s.
Proof.
  intros H1 H2 H3.
  destruct (invoke_refines c s) as [Hs1 Hr1]. rewrite H1 in Hs1, Hr1.
  cbn [fst snd] in Hs1, Hr1. subst s1.
  pose proof (invoke_all_state between s) as Hs2. rewrite H2 in Hs2.
  cbn [snd] in Hs2. subst s2.
  rewrite H1 in H3. injection H3 as <- <-.
  repeat split. exact Hr1.
Qed.

Lemma tools_idempotent_witness :
  exists r rs,
    Registry.invoke (GetProductDetails "tv-001") sample_store = (Ok r, sample_store)
    /\ Registry.invoke_all [SearchProducts "oled" EmptyString;
                            RedirectToHumanSupport "returns" "refund"]
                           sample_store = (rs, sample_store)
    /\ dict_get r "product" = Some (PObj 1)
    /\ resolve sample_store (Ok r) = denote (GetProductDetails "tv-001") sample_store.
Proof.
  do 2 eexists. split; [reflexivity|]. split; [reflexivity|]. split; [reflexivity|].
  apply (tools_idempotent sample_store sample_store sample_store sample_store
           (GetProductDetails "tv-001")
           [SearchProducts "oled" EmptyString; RedirectToHumanSupport "returns" "refund"]
           _ _ _ eq_refl eq_refl eq_refl).
Defined.

(* ================================================================== *)
(** * get_agent_response *)
(* ================================================================== *)

Lemma join_cons (x : string) (l : list string) : join (x :: l) = x ++ join l.
Proof.
  unfold join. destruct l as [|y l]; cbn [concat].
  - now rewrite append_nil_r.
  - reflexivity.
Qed.

Lemma join_app (l l' : list string) : join (l ++ l') = join l ++ join l'.
Proof.
  induction l as [|x l IH]; [reflexivity|].
  rewrite <- app_comm_cons, !join_cons, IH. now rewrite append_assoc.
Qed.

(** The inner loop appends the fragments of the parts, in order. *)
Lemma add_parts_fragments (ps : list Part) (acc : string) :
  add_parts acc ps = acc ++ join (part_fragments ps).
Proof.
  revert acc. induction ps as [|p ps IH]; intros acc.
  - cbn. now rewrite append_nil_r.
  - cbn [add_parts part_fragments flat_map]. fold (part_fragments ps).
    destruct (text p) as [t|].
    + destruct (str_truthy t).
      * rewrite IH. cbn [app]. now rewrite join_cons, append_assoc.
      * apply IH.
    + apply IH.
Qed.

(** The outer loop appends the fragments of the events, in order. *)
Lemma run_events_fragments (events : list Event) (acc : string) :
  run_events acc events = acc ++ join (fragments events).
Proof.
  revert acc. induction events as [|e events IH]; intros acc.
  - cbn. now rewrite append_nil_r.
  - cbn [run_events fragments flat_map]. fold (fragments events).
    rewrite join_app. unfold event_fragments.
    destruct (content e) as [c|]; [|apply IH].
    destruct (parts c) as [[|p ps]|]; [apply IH | | apply IH].
    rewrite IH, add_parts_fragments. now rewrite append_assoc.
Qed.

(** A fragment is never empty, so the accumulated text is empty only
    when there is no fragment. *)
Lemma part_fragments_nonempty (ps : list Part) :
  Forall (fun t => t <> EmptyString) (part_fragments ps).
Proof.
  induction ps as [|p ps IH]; [constructor|].
  cbn [part_fragments flat_map]. fold (part_fragments ps).
  destruct (text p) as [[|c t]|]; cbn; try assumption.
  constructor; [discriminate | assumption].
Qed.

Lemma fragments_nonempty (events : list Event) :
  Forall (fun t => t <> EmptyString) (fragments events).
Proof.
  induction events as [|e events IH]; [constructor|].
  cbn [fragments flat_map]. fold (fragments events).
  apply Forall_app. split; [|assumption].
  unfold event_fragments.
  destruct (content e) as [c|]; [|constructor].
  destruct (parts c); [apply part_fragments_nonempty | constructor].
Qed.

Lemma join_empty_iff (l : list string) :
  Forall (fun t => t <> EmptyString) l ->
  (join l = EmptyString <-> l = []).
Proof.
  intros H. split; [|now intros ->].
  destruct H as [|t l Ht _]; [reflexivity|].
  rewrite join_cons. intros Hj. apply append_eq_nil in Hj as [-> _].
  contradiction.
Qed.

(** C1, at the failing input: an agent whose only fragment is one space
    emits a text fragment, line 91 finds the text truthy and strips it,
    and the response is the empty string, not the fallback: the result
    of [get_agent_response] can be empty. *)
Lemma get_agent_response_can_be_empty :
  fragments (blank_agent "web_user" "session-1"
               (mkContent (Some "user") (Some [mkPart (Some "hello")]))) = [" "]
  /\ get_agent_response blank_agent "session-1" "hello" = EmptyString
  /\ ~ (forall run_async session utterance,
          get_agent_response run_async session utterance <> EmptyString).
Proof.
  split; [reflexivity|]. split; [reflexivity|].
  intros H. now apply (H blank_agent "session-1" "hello").
Qed.

(** X24: for every session and utterance, with [text] the
    agent-emitted fragments of the turn concatenated in emission order,
    [get_agent_response] returns [text.strip()] when [text] is
    non-empty, and the fallback string when it is empty, which is
    exactly when no fragment was emitted; for an ASCII [text] the
    response is the empty string exactly when [text] is non-empty and
    all whitespace. *)
Theorem get_agent_response_spec
        (run_async : string -> string -> Content -> list Event)
        (session utterance : string) :
  let events :=
    run_async "web_user" session
              (mkContent (Some "user") (Some [mkPart (Some utterance)])) in
  let text := join (fragments events) in
  get_agent_response run_async session utterance =
    (if str_truthy text then strip text else fallback)
  /\ (fragments events = [] <-> text = EmptyString)
  /\ (isascii text = true ->
      (get_agent_response run_async session utterance = EmptyString <->
       text <> EmptyString /\ all_space text = true)).
Proof.
  intros events text.
  assert (Hrun : get_agent_response run_async session utterance =
                 if str_truthy text then strip text else fallback).
  { unfold get_agent_response, _run. fold events.
    rewrite run_events_fragments. reflexivity. }
  split; [exact Hrun|]. split.
  - symmetry. apply join_empty_iff, fragments_nonempty.
  - intros _. rewrite Hrun. destruct (str_truthy text) eqn:Ht.
    + rewrite strip_empty_iff. apply str_truthy_true in Ht. tauto.
    + apply str_truthy_false in Ht. split; [discriminate | tauto].
Qed.

Lemma get_agent_response_spec_witness :
  get_agent_response sample_agent "session-1" "is the AC in stock?" =
    "The AC-001 is in stock."
  /\ isascii " The AC-001 is in stock. " = true
  /\ get_agent_response sample_agent "session-1" "is the AC in stock?" <> EmptyString.
Proof.
  destruct (get_agent_response_spec sample_agent "session-1" "is the AC in stock?")
    as (Hrun & _ & Hempty).
  split; [exact Hrun|]. split; [reflexivity|].
  intros H. apply (Hempty eq_refl) in H as [_ H]. discriminate.
Defined.

(* ================================================================== *)
(** * Further properties: strings and lists *)
(* ================================================================== *)

Lemma lower_upper_ascii (c : ascii) : lower_ascii (upper_ascii c) = lower_ascii c.
Proof. destruct c as [[] [] [] [] [] [] [] []]; reflexivity. Qed.

Lemma lower_upper (s : string) : lower (upper s) = lower s.
Proof.
  induction s as [|c s IH]; simpl; [reflexivity|].
  now rewrite lower_upper_ascii, IH.
Qed.

Lemma str_truthy_upper (s : string) : str_truthy (upper s) = str_truthy s.
Proof. now destruct s. Qed.

Lemma str_truthy_lower (s : string) : str_truthy (lower s) = str_truthy s.
Proof. now destruct s. Qed.

(** Splitting a text with a space in it splits the two sides. *)
Lemma split_from_app_space (cur a b : string) :
  split_from cur (a ++ String " " b) = (split_from cur a ++ split b)%list.
Proof.
  revert cur. induction a as [|c a IH]; intros cur.
  - cbn. now destruct (str_truthy cur).
  - cbn [append split_from]. destruct (is_space c).
    + destruct (str_truthy cur); rewrite IH; reflexivity.
    + apply IH.
Qed.

Lemma split_app_space (a b : string) :
  split (a ++ String " " b) = (split a ++ split b)%list.
Proof. apply split_from_app_space. Qed.

Lemma subseq_refl {A : Type} (l : list A) : subseq l l.
Proof. induction l; constructor; assumption. Qed.

Lemma subseq_length {A : Type} (l1 l2 : list A) :
  subseq l1 l2 -> (List.length l1 <= List.length l2)%nat.
Proof. induction 1; simpl; lia. Qed.

Lemma subseq_filter_imp {A : Type} (f g : A -> bool) (l : list A) :
  (forall x, f x = true -> g x = true) -> subseq (filter f l) (filter g l).
Proof.
  intros Hfg. induction l as [|x l IH]; simpl; [constructor|].
  destruct (f x) eqn:Hf.
  - rewrite (Hfg x Hf). now constructor.
  - destruct (g x); [now constructor | assumption].
Qed.

Lemma subseq_filter {A : Type} (f : A -> bool) (l : list A) :
  subseq (filter f l) l.
Proof.
  induction l as [|x l IH]; simpl; [constructor|].
  destruct (f x); now constructor.
Qed.

(** A subsequence of the products gives a subsequence of the summaries. *)
Lemma subseq_summaries (l1 l2 out1 out2 : list record) :
  subseq l1 l2 ->
  Forall2 (fun s p => summary p = Ok s) out1 l1 ->
  Forall2 (fun s p => summary p = Ok s) out2 l2 ->
  subseq out1 out2.
Proof.
  intros Hsub. revert out1 out2.
  induction Hsub as [|x l1 l2 _ IH|x l1 l2 _ IH]; intros out1 out2 H1 H2.
  - inversion H1; inversion H2; subst. constructor.
  - inversion H2; subst. constructor. now apply IH.
  - inversion H1 as [|s1 ? o1 ? Hs1 Hr1]; inversion H2 as [|s2 ? o2 ? Hs2 Hr2]; subst.
    assert (s1 = s2) by congruence. subst. apply subseq_take. now apply IH.
Qed.

Lemma result_products_run (q : string) (out : list record) :
  result_products
    (if list_truthy out
     then [("status", Atom (SStr "found"));
           ("count", Atom (SInt (Z.of_nat (List.length out))));
           ("products", Recs out)]
     else [("status", Atom (SStr "not_found"));
           ("message", Atom (SStr ("No products found matching '" ++ q
                                   ++ "'. Try different keywords.")))]) = out.
Proof. now destruct out. Qed.

(* ================================================================== *)
(** * Further properties of search_products *)
(* ================================================================== *)

Lemma category_mismatch_same (c c' : string) (p : record) :
  str_truthy c = str_truthy c' -> lower c = lower c' ->
  category_mismatch c p = category_mismatch c' p.
Proof. unfold category_mismatch. now intros -> ->. Qed.

Lemma search_loop_same_category (ql c c' : string) (products results : list record) :
  str_truthy c = str_truthy c' -> lower c = lower c' ->
  search_loop ql c products results = search_loop ql c' products results.
Proof.
  intros Ht Hl. revert results.
  induction products as [|p rest IH]; intros results; [reflexivity|].
  cbn [search_loop]. rewrite (category_mismatch_same c c' p Ht Hl).
  destruct (category_mismatch c' p) as [[|]|e]; cbn [bind]; [apply IH | | reflexivity].
  destruct (searchable p) as [text|e]; cbn [bind]; [|reflexivity].
  destruct (any_word_in ql text); [|apply IH].
  destruct (summary p) as [s|e]; cbn [bind]; [apply IH | reflexivity].
Qed.

(** Whatever the catalog, the loop only ever appends summaries of
    products it visited, in the order it visited them. *)
Lemma search_loop_picks (ql c : string) (products results out : list record) :
  search_loop ql c products results = Ok out ->
  exists picked chosen,
    out = (results ++ picked)%list
    /\ subseq chosen products
    /\ Forall2 (fun s p => summary p = Ok s) picked chosen.
Proof.
  revert results. induction products as [|p rest IH]; intros results.
  - intros [= <-]. exists [], []. rewrite app_nil_r. repeat constructor.
  - cbn [search_loop].
    assert (Hskip : forall acc, search_loop ql c rest acc = Ok out ->
              exists picked chosen,
                out = (acc ++ picked)%list /\ subseq chosen (p :: rest)
                /\ Forall2 (fun s p => summary p = Ok s) picked chosen).
    { intros acc H. destruct (IH acc H) as (picked & chosen & ? & ? & ?).
      exists picked, chosen. repeat split; try assumption. now constructor. }
    destruct (category_mismatch c p) as [[|]|e]; cbn [bind];
      [apply Hskip | | discriminate].
    destruct (searchable p) as [text|e]; cbn [bind]; [|discriminate].
    destruct (any_word_in ql text); [|apply Hskip].
    destruct (summary p) as [s|e] eqn:Hs; cbn [bind]; [|discriminate].
    intros H. destruct (IH _ H) as (picked & chosen & -> & Hsub & Hall).
    exists (s :: picked), (p :: chosen). rewrite <- app_assoc.
    repeat split; [now constructor | now constructor].
Qed.

Lemma summary_has_keys (p s : record) : summary p = Ok s -> keys s = summary_keys.
Proof.
  unfold summary, subscript.
  destruct (dict_get p "id"); [|discriminate].
  destruct (dict_get p "name"); [|discriminate].
  destruct (dict_get p "category"); [|discriminate].
  destruct (dict_get p "price"); [|discriminate].
  destruct (dict_get p "currency"); [|discriminate].
  destruct (dict_get p "in_stock"); [|discriminate].
  cbn [bind]. intros [= <-]. reflexivity.
Qed.

Lemma search_products_picks (products : catalog) (q c : string) (r : result) :
  search_products products q c = Ok r ->
  exists chosen,
    subseq chosen (values products)
    /\ Forall2 (fun s p => summary p = Ok s) (result_products r) chosen.
Proof.
  unfold search_products.
  destruct (search_loop (lower q) c (values products) []) as [out|e] eqn:Hrun;
    cbn [bind]; [|discriminate].
  destruct (search_loop_picks _ _ _ _ _ Hrun) as (picked & chosen & Hout & Hsub & Hall).
  cbn [app] in Hout. subst picked.
  destruct out; cbn [list_truthy]; intros [= <-]; exists chosen;
    (split; [assumption | exact Hall]).
Qed.

(** X1: an ASCII query is matched case-insensitively: upper-casing or
    lower-casing it changes neither the status, nor the count, nor the
    products returned, nor the exception raised (only the query echoed
    in a [not_found] message). *)
Theorem search_products_query_case (products : catalog) (q c : string) :
  isascii q = true ->
  same_hits (search_products products (upper q) c) (search_products products q c)
  /\ same_hits (search_products products (lower q) c) (search_products products q c).
Proof.
  intros _. unfold search_products. rewrite lower_upper, lower_idem.
  destruct (search_loop (lower q) c (values products) []) as [[|s out]|e];
    cbn; auto.
Qed.

Lemma search_products_query_case_witness :
  isascii "Oled" = true
  /\ same_hits (search_products sample_products (upper "Oled") EmptyString)
               (search_products sample_products "Oled" EmptyString)
  /\ same_hits (search_products sample_products (lower "Oled") EmptyString)
               (search_products sample_products "Oled" EmptyString).
Proof.
  split; [reflexivity|].
  apply (search_products_query_case sample_products "Oled" EmptyString).
  reflexivity.
Defined.

(** X2: an ASCII category filter is case-insensitive: upper-casing or
    lower-casing the category argument gives the identical outcome. *)
Theorem search_products_category_case (products : catalog) (q c : string) :
  isascii c = true ->
  search_products products q (upper c) = search_products products q c
  /\ search_products products q (lower c) = search_products products q c.
Proof.
  intros _. unfold search_products. split.
  - rewrite (search_loop_same_category _ (upper c) c);
      [reflexivity | apply str_truthy_upper | apply lower_upper].
  - rewrite (search_loop_same_category _ (lower c) c);
      [reflexivity | apply str_truthy_lower | apply lower_idem].
Qed.

Lemma search_products_category_case_witness :
  isascii "Televisions" = true
  /\ search_products sample_products "oled" (upper "Televisions") =
     search_products sample_products "oled" "Televisions"
  /\ search_products sample_products "oled" (lower "Televisions") =
     search_products sample_products "oled" "Televisions".
Proof.
  split; [reflexivity|].
  apply (search_products_category_case sample_products "oled" "Televisions").
  reflexivity.
Defined.

Lemma matchesb_no_category (q c : string) (p : record) :
  matchesb q c p = true -> matchesb q EmptyString p = true.
Proof.
  unfold matchesb. cbn [str_truthy negb orb].
  intros H. apply andb_prop in H as [_ H]. exact H.
Qed.

Lemma matchesb_more_words_l (q1 q2 c : string) (p : record) :
  matchesb q1 c p = true -> matchesb (q1 ++ " " ++ q2) c p = true.
Proof.
  unfold matchesb. rewrite lower_app. cbn [append lower].
  change (lower_ascii " ") with " "%char.
  rewrite split_app_space, existsb_app.
  intros H. apply andb_prop in H as [-> ->]. reflexivity.
Qed.

Lemma matchesb_more_words_r (q1 q2 c : string) (p : record) :
  matchesb q2 c p = true -> matchesb (q1 ++ " " ++ q2) c p = true.
Proof.
  unfold matchesb. rewrite lower_app. cbn [append lower].
  change (lower_ascii " ") with " "%char.
  rewrite split_app_space, existsb_app.
  intros H. apply andb_prop in H as [-> ->]. now rewrite orb_true_r.
Qed.

(** Two searches over one well-formed catalog, the second matching at
    least what the first matches. *)
Lemma search_products_subseq (products : catalog) (q c q' c' : string) :
  wf_products products = true ->
  (forall p, matchesb q c p = true -> matchesb q' c' p = true) ->
  exists r r',
    search_products products q c = Ok r
    /\ search_products products q' c' = Ok r'
    /\ subseq (result_products r) (result_products r').
Proof.
  intros Hwf Himp.
  destruct (search_products_run products q c Hwf) as (out & Hout & Hrun).
  destruct (search_products_run products q' c' Hwf) as (out' & Hout' & Hrun').
  do 2 eexists. split; [exact Hrun|]. split; [exact Hrun'|].
  rewrite !result_products_run.
  eapply subseq_summaries; [|exact Hout | exact Hout'].
  now apply subseq_filter_imp.
Qed.

(** X3: on a well-formed catalog, a category filter only removes
    results: the products found with a category are a subsequence, in
    the same order, of the products found for the same query without
    one. *)
Theorem search_products_category_narrows (products : catalog) (q c : string) :
  wf_products products = true ->
  exists r r0,
    search_products products q c = Ok r
    /\ search_products products q EmptyString = Ok r0
    /\ subseq (result_products r) (result_products r0).
Proof.
  intros Hwf. apply search_products_subseq; [assumption|].
  intros p. apply matchesb_no_category.
Qed.

Lemma search_products_category_narrows_witness :
  wf_products sample_products = true
  /\ exists r r0,
       search_products sample_products "inverter oled" "televisions" = Ok r
       /\ search_products sample_products "inverter oled" EmptyString = Ok r0
       /\ subseq (result_products r) (result_products r0).
Proof.
  split; [reflexivity|].
  apply (search_products_category_narrows sample_products "inverter oled" "televisions").
  reflexivity.
Defined.

(** X4: on a well-formed catalog, keywords are alternatives: the
    products found for [q1] alone, and those found for [q2] alone, are
    each a subsequence of the products found for the two queries put
    together with a space. *)
Theorem search_products_more_words (products : catalog) (q1 q2 c : string) :
  wf_products products = true ->
  exists r1 r2 r12,
    search_products products q1 c = Ok r1
    /\ search_products products q2 c = Ok r2
    /\ search_products products (q1 ++ " " ++ q2) c = Ok r12
    /\ subseq (result_products r1) (result_products r12)
    /\ subseq (result_products r2) (result_products r12).
Proof.
  intros Hwf.
  destruct (search_products_subseq products q1 c (q1 ++ " " ++ q2) c Hwf)
    as (r1 & r12 & H1 & H12 & Hs1);
    [intros p; apply matchesb_more_words_l|].
  destruct (search_products_subseq products q2 c (q1 ++ " " ++ q2) c Hwf)
    as (r2 & r12' & H2 & H12' & Hs2);
    [intros p; apply matchesb_more_words_r|].
  exists r1, r2, r12. rewrite H12 in H12'. injection H12' as <-.
  repeat split; assumption.
Qed.

Lemma search_products_more_words_witness :
  wf_products sample_products = true
  /\ exists r1 r2 r12,
       search_products sample_products "inverter" EmptyString = Ok r1
       /\ search_products sample_products "oled" EmptyString = Ok r2
       /\ search_products sample_products ("inverter" ++ " " ++ "oled") EmptyString = Ok r12
       /\ subseq (result_products r1) (result_products r12)
       /\ subseq (result_products r2) (result_products r12).
Proof.
  split; [reflexivity|].
  apply (search_products_more_words sample_products "inverter" "oled" EmptyString).
  reflexivity.
Defined.

Lemma searchable_missing_key (p : record) (k : string) :
  In k searchable_keys -> has_key p k = false -> exists e, searchable p = Raise e.
Proof.
  unfold searchable_keys, has_key, searchable, subscript.
  intros Hk Hno.
  destruct (dict_get p "name") eqn:Hn; cbn [bind]; [|eauto].
  destruct (dict_get p "category") eqn:Hc; cbn [bind]; [|eauto].
  destruct (dict_get p "brand") eqn:Hb; cbn [bind]; [|eauto].
  destruct (dict_get p "description") eqn:Hd; cbn [bind]; [|eauto].
  exfalso.
  destruct Hk as [<-|[<-|[<-|[<-|[]]]]];
    [rewrite Hn in Hno | rewrite Hc in Hno | rewrite Hb in Hno | rewrite Hd in Hno];
    discriminate.
Qed.

Lemma search_loop_raises (ql : string) (p : record) (products results : list record) :
  In p products -> (exists e, searchable p = Raise e) ->
  exists e, search_loop ql EmptyString products results = Raise e.
Proof.
  intros Hin [e0 He0]. revert results.
  induction products as [|p' rest IH]; intros results; [contradiction|].
  cbn [search_loop category_mismatch str_truthy bind].
  destruct Hin as [->|Hin].
  - rewrite He0. cbn [bind]. eauto.
  - destruct (searchable p') as [text|e]; cbn [bind]; [|eauto].
    destruct (any_word_in ql text); [|now apply IH].
    destruct (summary p') as [s|e]; cbn [bind]; [now apply IH | eauto].
Qed.

(** X5: one malformed product breaks every unfiltered search: if some
    product of the catalog lacks one of the fields name, category, brand,
    description, then [search_products] without a category raises, for
    every query, blank ones included. *)
Theorem search_products_missing_field
        (products : catalog) (p : record) (k q : string) :
  In p (values products) ->
  In k searchable_keys ->
  has_key p k = false ->
  exists e, search_products products q EmptyString = Raise e.
Proof.
  intros Hin Hk Hno. unfold search_products.
  destruct (search_loop_raises (lower q) p (values products) [] Hin
              (searchable_missing_key p k Hk Hno)) as [e He].
  rewrite He. cbn [bind]. eauto.
Qed.

Lemma search_products_missing_field_witness :
  exists e,
    search_products (sample_products ++ [("XX-001", sample_stub)])%list
                    "  " EmptyString = Raise e.
Proof.
  apply (search_products_missing_field _ sample_stub "brand" "  ").
  - cbn. auto.
  - cbn. auto.
  - reflexivity.
Defined.

Lemma category_mismatch_not_str (c : string) (p : record) :
  c <> EmptyString -> has_str p "category" = false ->
  exists e, category_mismatch c p = Raise e.
Proof.
  intros Hc Hno. apply str_truthy_true in Hc.
  unfold category_mismatch, subscript, has_str in *. rewrite Hc.
  destruct (dict_get p "category") as [[| | | |s]|]; cbn; eauto; discriminate.
Qed.

Lemma search_loop_raises_filtered (ql c : string) (p : record)
      (products results : list record) :
  In p products -> (exists e, category_mismatch c p = Raise e) ->
  exists e, search_loop ql c products results = Raise e.
Proof.
  intros Hin [e0 He0]. revert results.
  induction products as [|p' rest IH]; intros results; [contradiction|].
  cbn [search_loop].
  destruct Hin as [->|Hin].
  - rewrite He0. cbn [bind]. eauto.
  - destruct (category_mismatch c p') as [[|]|e]; cbn [bind];
      [now apply IH | | eauto].
    destruct (searchable p') as [text|e]; cbn [bind]; [|eauto].
    destruct (any_word_in ql text); [|now apply IH].
    destruct (summary p') as [s|e]; cbn [bind]; [now apply IH | eauto].
Qed.

(** X13: with a category filter, a product whose category is missing
    or is not a string makes [search_products] raise, for every query
    and every non-empty category, also when other products match. *)
Theorem search_products_bad_category
        (products : catalog) (p : record) (q c : string) :
  In p (values products) ->
  has_str p "category" = false ->
  c <> EmptyString ->
  exists e, search_products products q c = Raise e.
Proof.
  intros Hin Hno Hc. unfold search_products.
  destruct (search_loop_raises_filtered (lower q) c p (values products) [] Hin
              (category_mismatch_not_str c p Hc Hno)) as [e He].
  rewrite He. cbn [bind]. eauto.
Qed.

Lemma search_products_bad_category_witness :
  exists e,
    search_products (sample_products ++ [("XX-002", sample_untyped)])%list
                    "oled" "Televisions" = Raise e.
Proof.
  apply (search_products_bad_category _ sample_untyped "oled" "Televisions").
  - cbn. auto.
  - reflexivity.
  - discriminate.
Defined.

(** X6: every record [search_products] returns has exactly the six
    keys id, name, category, price, currency, in_stock, in this order;
    brand, description and any other field of the product are never
    passed on. *)
Theorem search_products_summary_keys (products : catalog) (q c : string) (r : result) :
  search_products products q c = Ok r ->
  Forall (fun s => keys s = summary_keys) (result_products r).
Proof.
  intros Hrun.
  destruct (search_products_picks products q c r Hrun) as (chosen & _ & Hall).
  induction Hall as [|s p out chosen' Hs _ IH]; constructor; [|assumption].
  now apply (summary_has_keys p).
Qed.

Lemma search_products_summary_keys_witness :
  exists r,
    search_products sample_products "oled" EmptyString = Ok r
    /\ result_products r <> []
    /\ Forall (fun s => keys s = summary_keys) (result_products r).
Proof.
  eexists. split; [reflexivity|]. split; [discriminate|].
  apply (search_products_summary_keys sample_products "oled" EmptyString).
  reflexivity.
Defined.

(** X7: the results are distinct catalog entries: the list returned is
    made of the summaries of a subsequence of [PRODUCTS.values()], so it
    has at most as many records as the catalog has products and no
    product is reported twice. *)
Theorem search_products_at_most_catalog (products : catalog) (q c : string) (r : result) :
  search_products products q c = Ok r ->
  (exists chosen,
      subseq chosen (values products)
      /\ Forall2 (fun s p => summary p = Ok s) (result_products r) chosen)
  /\ (List.length (result_products r) <= List.length products)%nat.
Proof.
  intros Hrun.
  destruct (search_products_picks products q c r Hrun) as (chosen & Hsub & Hall).
  split; [now exists chosen|].
  apply Forall2_length in Hall. apply subseq_length in Hsub.
  unfold values in Hsub. rewrite length_map in Hsub. lia.
Qed.

Lemma search_products_at_most_catalog_witness :
  exists r,
    search_products sample_products "tv ac" EmptyString = Ok r
    /\ (exists chosen,
           subseq chosen (values sample_products)
           /\ Forall2 (fun s p => summary p = Ok s) (result_products r) chosen)
    /\ (List.length (result_products r) <= List.length sample_products)%nat.
Proof.
  eexists. split; [reflexivity|].
  apply (search_products_at_most_catalog sample_products "tv ac" EmptyString).
  reflexivity.
Defined.

(* ================================================================== *)
(** * Further properties of the lookups *)
(* ================================================================== *)



(** X9: [check_order_status] on an identifier whose upper-case form is
    not a key returns [not_found], with a message that quotes the
    identifier as it was typed and names the expected format
    ORD-XXXXX. *)
Theorem check_order_status_unknown (orders : catalog) (order_id : string) :
  dict_get orders (upper order_id) = None ->
  exists m,
    check_order_status orders order_id =
      Ok [("status", Atom (SStr "not_found")); ("message", Atom (SStr m))]
    /\ Substring order_id m
    /\ Substring "ORD-XXXXX" m.
Proof.
  intros Hget. unfold check_order_status. rewrite Hget.
  eexists. split; [reflexivity|]. split.
  - eexists. eexists. reflexivity.
  - apply Substring_app_r, Substring_app_r.
    apply is_substring_iff. reflexivity.
Qed.

Lemma check_order_status_unknown_witness :
  exists m,
    check_order_status sample_orders "ord-99999" =
      Ok [("status", Atom (SStr "not_found")); ("message", Atom (SStr m))]
    /\ Substring "ord-99999" m
    /\ Substring "ORD-XXXXX" m.
Proof.
  apply (check_order_status_unknown sample_orders "ord-99999"). reflexivity.
Defined.

(** X10: [check_order_status] is case-insensitive where it finds an
    order: if it returns [found] for an ASCII identifier, it returns the
    same result for the identifier in lower case and in upper case. *)
Theorem check_order_status_case (orders : catalog) (order_id : string) (r : result) :
  isascii order_id = true ->
  check_order_status orders order_id = Ok r ->
  status r = Some "found" ->
  check_order_status orders (lower order_id) = Ok r
  /\ check_order_status orders (upper order_id) = Ok r.
Proof.
  intros _. unfold check_order_status. rewrite upper_lower, upper_idem.
  destruct (dict_get orders (upper order_id)) as [[|kv order]|];
    intros [= <-] Hst; try discriminate.
  split; reflexivity.
Qed.

Lemma check_order_status_case_witness :
  exists r,
    isascii "Ord-10001" = true
    /\ check_order_status sample_orders "Ord-10001" = Ok r
    /\ status r = Some "found"
    /\ check_order_status sample_orders (lower "Ord-10001") = Ok r
    /\ check_order_status sample_orders (upper "Ord-10001") = Ok r.
Proof.
  eexists. split; [reflexivity|]. split; [reflexivity|]. split; [reflexivity|].
  apply (check_order_status_case sample_orders "Ord-10001"); reflexivity.
Defined.

(** X11: a key bound to an empty record counts as missing: both
    [get_product_details] and [redirect_to_product_page] answer
    [not_found] for it, as they do for an absent key. *)
Theorem empty_product_not_found (products : catalog) (product_id action : string) :
  dict_get products (upper product_id) = Some [] ->
  get_product_details products product_id =
    Ok [("status", Atom (SStr "not_found"));
        ("message", Atom (SStr ("Product '" ++ product_id
            ++ "' not found. Use search_products to find valid IDs.")))]
  /\ redirect_to_product_page products product_id action =
     Ok [("status", Atom (SStr "not_found"));
         ("message", Atom (SStr ("Product '" ++ product_id ++ "' not found.")))].
Proof.
  intros Hget. unfold get_product_details, redirect_to_product_page.
  rewrite Hget. split; reflexivity.
Qed.

Lemma empty_product_not_found_witness :
  get_product_details [("AC-001", [])] "ac-001" =
    Ok [("status", Atom (SStr "not_found"));
        ("message", Atom (SStr ("Product '" ++ "ac-001"
            ++ "' not found. Use search_products to find valid IDs.")))]
  /\ redirect_to_product_page [("AC-001", [])] "ac-001" "buy" =
     Ok [("status", Atom (SStr "not_found"));
         ("message", Atom (SStr ("Product '" ++ "ac-001" ++ "' not found.")))].
Proof.
  apply (empty_product_not_found [("AC-001", [])] "ac-001" "buy"). reflexivity.
Defined.

(** X12: on a well-formed catalog the two product tools agree: when
    [get_product_details] finds a product, [redirect_to_product_page]
    succeeds for the same identifier and reports the name and stock flag
    of that very record; when the first answers [not_found], so does the
    second. *)
Theorem details_and_page_agree
        (products : catalog) (product_id action : string) (rd : result) :
  wf_products products = true ->
  get_product_details products product_id = Ok rd ->
  (status rd = Some "found" ->
   exists product rp,
     dict_get rd "product" = Some (Rec product)
     /\ redirect_to_product_page products product_id action = Ok rp
     /\ status rp = Some "success"
     /\ dict_get rp "product_name" = Some (Atom (field product "name"))
     /\ dict_get rp "in_stock" = Some (Atom (field product "in_stock")))
  /\ (status rd = Some "not_found" ->
      exists rp,
        redirect_to_product_page products product_id action = Ok rp
        /\ status rp = Some "not_found").
Proof.
  intros Hwf. unfold get_product_details.
  destruct (redirect_to_product_page_run products product_id action Hwf)
    as [(product & Hget & Hrun) | Hrun].
  - rewrite Hget.
    pose proof (wf_product_nonempty _ (wf_products_get _ _ _ Hwf Hget)) as Hne.
    destruct product as [|kv product']; [contradiction|].
    intros [= <-]. split; [|discriminate].
    intros _. exists (kv :: product').
    destruct Hrun as [Hrun|Hrun]; rewrite Hrun; eexists; repeat split.
  - intros Hrd. split.
    + intros Hst.
      unfold redirect_to_product_page in Hrun.
      destruct (dict_get products (upper product_id)) as [[|kv product']|] eqn:Hget;
        injection Hrd as <-; try discriminate.
      pose proof (wf_products_get _ _ _ Hwf Hget) as Hp.
      product_fields Hp.
      repeat match goal with
             | Hk : subscript _ _ = _ |- _ => rewrite Hk in Hrun; clear Hk
             end.
      cbn [bind] in Hrun. destruct (lower action =? "buy"); discriminate.
    + intros _. rewrite Hrun. eexists. split; reflexivity.
Qed.

Lemma details_and_page_agree_witness :
  exists rd product rp,
    get_product_details sample_products "tv-001" = Ok rd
    /\ dict_get rd "product" = Some (Rec product)
    /\ redirect_to_product_page sample_products "tv-001" "buy" = Ok rp
    /\ status rp = Some "success"
    /\ dict_get rp "product_name" = Some (Atom (field product "name"))
    /\ dict_get rp "in_stock" = Some (Atom (field product "in_stock")).
Proof.
  destruct (details_and_page_agree sample_products "tv-001" "buy" _ eq_refl eq_refl)
    as [Hfound _].
  destruct (Hfound eq_refl) as (product & rp & H).
  eexists. exists product, rp. split; [reflexivity | exact H].
Defined.

(** X14: a successful redirect does not depend on the case of the
    identifier: two identifiers with the same upper-case form get the
    same [success] result, URL included. *)
Theorem redirect_to_product_page_id_case
        (products : catalog) (product_id product_id' action : string) (r : result) :
  upper product_id = upper product_id' ->
  redirect_to_product_page products product_id action = Ok r ->
  status r = Some "success" ->
  redirect_to_product_page products product_id' action = Ok r.
Proof.
  unfold redirect_to_product_page. intros <-.
  destruct (dict_get products (upper product_id)) as [[|kv product]|];
    try (intros [= <-]; discriminate).
  auto.
Qed.

Lemma redirect_to_product_page_id_case_witness :
  exists r,
    redirect_to_product_page sample_products "Ac-001" "buy" = Ok r
    /\ status r = Some "success"
    /\ redirect_to_product_page sample_products "aC-001" "buy" = Ok r.
Proof.
  eexists. split; [reflexivity|]. split; [reflexivity|].
  apply (redirect_to_product_page_id_case sample_products "Ac-001" "aC-001" "buy");
    reflexivity.
Defined.

(* ================================================================== *)
(** * Further properties of redirect_to_human_support *)
(* ================================================================== *)

(** X15: the fallback is looked up before the topic:
    [redirect_to_human_support] raises [KeyError] on [general] exactly
    when the departments have no [general] key, and then it does so for
    every topic, also for one that has a department of its own. *)
Theorem redirect_to_human_support_no_general
        (departments : catalog) (topic reason : string) :
  redirect_to_human_support departments topic reason = Raise (KeyError "general")
  <-> dict_get departments "general" = None.
Proof.
  unfold redirect_to_human_support, subscript. split.
  - destruct (dict_get departments "general") as [general|]; [|reflexivity].
    cbn [bind].
    set (dept := dict_get_default departments (lower topic) general).
    destruct (dict_get dept "department"); cbn [bind]; [|discriminate].
    destruct (dict_get dept "phone"); cbn [bind]; [|discriminate].
    destruct (dict_get dept "email"); cbn [bind]; [|discriminate].
    destruct (dict_get dept "hours"); cbn [bind]; discriminate.
  - now intros ->.
Qed.

Lemma redirect_to_human_support_no_general_witness :
  dict_get [("returns", sample_returns)] "returns" = Some sample_returns
  /\ redirect_to_human_support [("returns", sample_returns)] "returns" "refund" =
     Raise (KeyError "general").
Proof.
  split; [reflexivity|].
  apply (redirect_to_human_support_no_general [("returns", sample_returns)]
           "returns" "refund").
  reflexivity.
Defined.

(** X16: an ASCII topic is matched case-insensitively: upper-casing or
    lower-casing it gives the identical outcome. *)
Theorem redirect_to_human_support_topic_case
        (departments : catalog) (topic reason : string) :
  isascii topic = true ->
  redirect_to_human_support departments (upper topic) reason =
    redirect_to_human_support departments topic reason
  /\ redirect_to_human_support departments (lower topic) reason =
     redirect_to_human_support departments topic reason.
Proof.
  intros _. unfold redirect_to_human_support. now rewrite lower_upper, lower_idem.
Qed.

Lemma redirect_to_human_support_topic_case_witness :
  isascii "Returns" = true
  /\ redirect_to_human_support sample_departments (upper "Returns") "refund" =
     redirect_to_human_support sample_departments "Returns" "refund"
  /\ redirect_to_human_support sample_departments (lower "Returns") "refund" =
     redirect_to_human_support sample_departments "Returns" "refund".
Proof.
  split; [reflexivity|].
  apply (redirect_to_human_support_topic_case sample_departments "Returns" "refund").
  reflexivity.
Defined.

(** X17: with the [general] key present, the call returns a result
    exactly when the department it selects (the topic's, or the general
    one) has the four contact fields; otherwise it raises. *)
Theorem redirect_to_human_support_ok_iff
        (departments : catalog) (topic reason : string) (general : record) :
  dict_get departments "general" = Some general ->
  ((exists r, redirect_to_human_support departments topic reason = Ok r)
   <-> wf_department (dict_get_default departments (lower topic) general) = true).
Proof.
  intros Hgen. unfold redirect_to_human_support.
  rewrite (subscript_get _ _ _ Hgen). cbn [bind].
  set (dept := dict_get_default departments (lower topic) general).
  unfold wf_department, department_keys, has_key, subscript. cbn [forallb].
  destruct (dict_get dept "department"); cbn [bind andb];
    [|split; [intros [r Hr]; discriminate | discriminate]].
  destruct (dict_get dept "phone"); cbn [bind andb];
    [|split; [intros [r Hr]; discriminate | discriminate]].
  destruct (dict_get dept "email"); cbn [bind andb];
    [|split; [intros [r Hr]; discriminate | discriminate]].
  destruct (dict_get dept "hours"); cbn [bind andb];
    [|split; [intros [r Hr]; discriminate | discriminate]].
  split; eauto.
Qed.

Lemma redirect_to_human_support_ok_iff_witness :
  (exists r, redirect_to_human_support
               (("payment", [("department", SStr "Billing")]) :: sample_departments)
               "Payment" "charged twice" = Ok r)
  <-> wf_department [("department", SStr "Billing")] = true.
Proof.
  apply (redirect_to_human_support_ok_iff
           (("payment", [("department", SStr "Billing")]) :: sample_departments)
           "Payment" "charged twice" sample_general).
  reflexivity.
Defined.

(** X18: a topic that is not a key is answered exactly as the topic
    [general] is, whether that is a result or an exception. *)
Theorem redirect_to_human_support_unknown_topic
        (departments : catalog) (topic reason : string) :
  dict_get departments (lower topic) = None ->
  redirect_to_human_support departments topic reason =
  redirect_to_human_support departments "general" reason.
Proof.
  intros Hno. unfold redirect_to_human_support, subscript, dict_get_default.
  rewrite Hno. change (lower "general") with "general".
  destruct (dict_get departments "general"); reflexivity.
Qed.

Lemma redirect_to_human_support_unknown_topic_witness :
  redirect_to_human_support sample_departments "Shipping" "late parcel" =
  redirect_to_human_support sample_departments "general" "late parcel".
Proof.
  apply (redirect_to_human_support_unknown_topic sample_departments "Shipping"
           "late parcel").
  reflexivity.
Defined.

(* ================================================================== *)
(** * Further properties of get_agent_response *)
(* ================================================================== *)

(** X19: whatever the agent emits, the response neither begins nor ends
    with a whitespace character. *)
Theorem get_agent_response_trimmed
        (run_async : string -> string -> Content -> list Event)
        (session utterance : string) :
  starts_with_space (get_agent_response run_async session utterance) = false
  /\ ends_with_space (get_agent_response run_async session utterance) = false.
Proof.
  unfold get_agent_response.
  destruct (str_truthy (_run run_async session _)).
  - apply strip_trimmed.
  - split; reflexivity.
Qed.

(** X20: only the emitted text counts, not how it is cut into events
    and parts: two event streams whose text fragments concatenate to the
    same text (for instance streams that differ in tool-call events, or
    in where the text is split) give the same response. *)
Theorem get_agent_response_chunking
        (run1 run2 : string -> string -> Content -> list Event)
        (session utterance : string) :
  let content := mkContent (Some "user") (Some [mkPart (Some utterance)]) in
  join (fragments (run1 "web_user" session content)) =
  join (fragments (run2 "web_user" session content)) ->
  get_agent_response run1 session utterance =
  get_agent_response run2 session utterance.
Proof.
  intros content Heq. unfold get_agent_response, _run. fold content.
  rewrite !run_events_fragments. cbn [append]. now rewrite Heq.
Qed.

Lemma get_agent_response_chunking_witness :
  get_agent_response sample_agent "session-1" "stock?" =
  get_agent_response
    (fun _ _ _ => [mkEvent (Some (mkContent None
                      (Some [mkPart (Some " The "); mkPart (Some "AC-001 is");
                             mkPart (Some " in stock. ")])))])
    "session-1" "stock?".
Proof.
  apply (get_agent_response_chunking sample_agent _ "session-1" "stock?").
  reflexivity.
Defined.

(** X21: when the agent emits some ASCII text, the response is that
    text with a run of whitespace removed at each end and nothing else
    changed. *)
Theorem get_agent_response_within_text
        (run_async : string -> string -> Content -> list Event)
        (session utterance : string) :
  let text :=
    join (fragments (run_async "web_user" session
                       (mkContent (Some "user") (Some [mkPart (Some utterance)])))) in
  isascii text = true ->
  text <> EmptyString ->
  exists a b,
    text = a ++ get_agent_response run_async session utterance ++ b
    /\ all_space a = true /\ all_space b = true.
Proof.
  intros text _ Hne. unfold get_agent_response, _run.
  rewrite run_events_fragments. cbn [append]. fold text.
  apply str_truthy_true in Hne. rewrite Hne.
  apply strip_decompose.
Qed.

Lemma get_agent_response_within_text_witness :
  isascii " The AC-001 is in stock. " = true
  /\ exists a b,
       " The AC-001 is in stock. " =
         a ++ get_agent_response sample_agent "session-1" "stock?" ++ b
       /\ all_space a = true /\ all_space b = true.
Proof.
  split; [reflexivity|].
  apply (get_agent_response_within_text sample_agent "session-1" "stock?");
    [reflexivity | discriminate].
Defined.

(* ================================================================== *)
(** * The chat page across runs *)
(* ================================================================== *)

Lemma render_history_shows (messages : list chat_turn) (shown : list bubble) :
  render_history messages = Ok shown -> Forall2 shows shown messages.
Proof.
  revert shown. induction messages as [|msg rest IH]; intros shown.
  - intros [= <-]. constructor.
  - cbn [render_history]. unfold subscript.
    destruct (dict_get msg "role") as [role|] eqn:Hr; cbn [bind]; [|discriminate].
    destruct (dict_get msg "content") as [body|] eqn:Hc; cbn [bind]; [|discriminate].
    destruct (render_history rest) as [shown'|e]; cbn [bind]; [|discriminate].
    intros [= <-]. constructor; [|now apply IH].
    unfold shows. cbn. auto.
Qed.


Section ScriptFacts.

Variable Runner : Type.
Variable create_runner : Runner.
Variable app_name : Runner -> string.





(** X23: what a run shows is what it stores: whenever a run of the
    script completes, the page holds the welcome message followed by one
    bubble per turn of the history as the run leaves it, in order, each
    with the role and content of its turn and with the shop icon as
    avatar exactly for the assistant; the welcome message itself is not
    part of the history. *)
Theorem script_run_display (w : world Runner) (prompt : option string)
        (st st' : session_state Runner) (page : list bubble) :
  script_run Runner create_runner app_name w prompt st = Ok (st', page) ->
  exists messages shown,
    ss_messages Runner st' = Some messages
    /\ page = mkBubble "assistant" (Some PAGE_ICON) WELCOME_MESSAGE :: shown
    /\ Forall2 shows shown messages.
Proof.
  unfold script_run, init_session_state. cbn [ss_messages ss_runner ss_session_id].
  set (messages := match ss_messages Runner st with Some m => m | None => [] end).
  destruct (render_history messages) as [shown|e] eqn:Hshown; cbn [bind];
    [|discriminate].
  apply render_history_shows in Hshown.
  unfold handle_input.
  destruct prompt as [p|]; [destruct (str_truthy p)|]; intros [= <- <-];
    do 2 eexists; (split; [reflexivity|]); (split; [reflexivity|]).
  - rewrite <- app_assoc. apply Forall2_app; [assumption|].
    repeat constructor.
  - now rewrite app_nil_r.
  - now rewrite app_nil_r.
Qed.

End ScriptFacts.

Lemma script_run_display_witness :
  exists st' page messages shown,
    script_run unit tt (fun _ => APP_NAME) sample_world (Some "Is the AC in stock?")
               (fresh_state unit) = Ok (st', page)
    /\ ss_messages unit st' = Some messages
    /\ page = mkBubble "assistant" (Some PAGE_ICON) WELCOME_MESSAGE :: shown
    /\ Forall2 shows shown messages
    /\ List.length messages = 2%nat.
Proof.
  destruct (script_run_display unit tt (fun _ => APP_NAME) sample_world
              (Some "Is the AC in stock?") (fresh_state unit) _ _ eq_refl)
    as (messages & shown & Hm & Hp & Hs).
  do 2 eexists. exists messages, shown.
  split; [reflexivity|]. repeat split; try assumption.
  injection Hm as <-. reflexivity.
Defined.
